(** * eSewa payment signature: the script [secret.py] and the view [paymentHandler]

    A shallow embedding of [PaymentIntegration_Esewa/Esewa/secret.py] and
    [PaymentIntegration_Esewa/Esewa/views.py], together with the parts of the
    Python standard library both files call ([uuid], [hashlib], [hmac],
    [base64], [str.encode], [bytes.decode], [print]), followed by the
    properties of the signature they compute.

    How the code is read:
    - the library functions follow their standards: SHA-256 is FIPS 180-4,
      [hmac.HMAC] is the class of [hmac.py] (checked against RFC 2104),
      [base64.b64encode] is RFC 4648, the codec is strict UTF-8,
      [uuid.uuid4] is [UUID(bytes=os.urandom(16), version=4)];
    - the world outside the program is the sequence of bytes the system's
      random source will hand out and the text on standard output; a
      computation takes a world and returns a result, or an exception, with
      the world it leaves;
    - [django.shortcuts.render] is not interpreted: a response is the
      template name and the context it was called with;
    - [int_str] is the decimal text of an [int] of any size; the
      interpreter's limit on the digits of such a conversion
      ([sys.get_int_max_str_digits()], 4300 unless set otherwise) is
      modelled in [digit_limit], where the f-string may raise
      [ValueError]; within the limit the two agree. *)

From Stdlib Require Import ZArith List Lia Bool Arith.
From Stdlib Require Import Ascii String.
From Stdlib.Strings Require Import Byte.
From Stdlib Require Decimal DecimalString DecimalZ.
Import ListNotations.

Local Open Scope Z_scope.

(* ================================================================== *)
(** ** Python values: [bytes], [str], [int] *)
(* ================================================================== *)

(** A Python [bytes] object: a finite sequence of octets. *)
Definition bytes := list byte.

(** A Python [str]: a finite sequence of Unicode code points.  Every code
    point from 0 to 0x10FFFF may occur in a [str], lone surrogates
    (U+D800 to U+DFFF) included. *)
Definition str := list Z.

Definition b2z (b : byte) : Z := Z.of_N (Byte.to_N b).

Definition z2b (z : Z) : byte :=
  match Byte.of_N (Z.to_N (z mod 256)) with
  | Some b => b
  | None => x00
  end.

(** A [bytes] literal such as [b"EPAYTEST"]. *)
Definition bytes_lit (s : string) : bytes := list_byte_of_string s.

(** A [str] literal (ASCII source text). *)
Definition str_lit (s : string) : str := map b2z (list_byte_of_string s).

Definition is_surrogate (c : Z) : bool := (55296 <=? c) && (c <=? 57343).

(* ================================================================== *)
(** ** [hashlib.sha256]: SHA-256 as FIPS 180-4 defines it *)
(* ================================================================== *)

Module SHA256.

Definition wrap (x : Z) : Z := x mod 4294967296.
Definition add32 (x y : Z) : Z := wrap (x + y).

Definition shr (n x : Z) : Z := Z.shiftr x n.
Definition rotr (n x : Z) : Z :=
  wrap (Z.lor (Z.shiftr x n) (Z.shiftl x (32 - n))).
Definition not32 (x : Z) : Z := Z.lxor x 4294967295.

Definition Ch (x y z : Z) : Z := Z.lxor (Z.land x y) (Z.land (not32 x) z).
Definition Maj (x y z : Z) : Z :=
  Z.lxor (Z.lxor (Z.land x y) (Z.land x z)) (Z.land y z).
Definition Sigma0 (x : Z) : Z := Z.lxor (Z.lxor (rotr 2 x) (rotr 13 x)) (rotr 22 x).
Definition Sigma1 (x : Z) : Z := Z.lxor (Z.lxor (rotr 6 x) (rotr 11 x)) (rotr 25 x).
Definition sigma0 (x : Z) : Z := Z.lxor (Z.lxor (rotr 7 x) (rotr 18 x)) (shr 3 x).
Definition sigma1 (x : Z) : Z := Z.lxor (Z.lxor (rotr 17 x) (rotr 19 x)) (shr 10 x).

(** The constants of FIPS 180-4, sections 4.2.2 and 5.3.3, from their
    definition: the first 32 bits of the fractional parts of the cube
    roots of the first 64 primes, and of the square roots of the first 8. *)
Definition is_prime (n : Z) : bool :=
  forallb (fun d => negb (n mod Z.of_nat d =? 0)) (seq 2 (Z.to_nat n - 2)).

Definition primes : list Z := filter is_prime (map Z.of_nat (seq 2 310)).

(** The integer cube root, one bit at a time from bit [k - 1] down. *)
Fixpoint cube_root_bits (k : nat) (r n : Z) : Z :=
  match k with
  | O => r
  | S k' =>
      let r' := r + 2 ^ Z.of_nat k' in
      if r' * r' * r' <=? n then cube_root_bits k' r' n
      else cube_root_bits k' r n
  end.

Definition cube_root (n : Z) : Z := cube_root_bits 40 0 n.

Definition K : list Z :=
  Eval vm_compute in map (fun p => wrap (cube_root (p * 2 ^ 96))) primes.

Definition H_words : list Z :=
  Eval vm_compute in map (fun p => wrap (Z.sqrt (p * 2 ^ 64))) (firstn 8 primes).

(** The eight 32-bit words of a hash value. *)
Record state : Type := mkState
  { h0 : Z; h1 : Z; h2 : Z; h3 : Z; h4 : Z; h5 : Z; h6 : Z; h7 : Z }.

Definition H_init : state :=
  mkState (nth 0 H_words 0) (nth 1 H_words 0) (nth 2 H_words 0)
          (nth 3 H_words 0) (nth 4 H_words 0) (nth 5 H_words 0)
          (nth 6 H_words 0) (nth 7 H_words 0).

(** Big-endian words. *)
Definition word_of_bytes (a b c d : byte) : Z :=
  b2z a * 16777216 + b2z b * 65536 + b2z c * 256 + b2z d.

Definition bytes_of_word (w : Z) : bytes :=
  [ z2b (w / 16777216); z2b (w / 65536); z2b (w / 256); z2b w ].

Fixpoint words_of_block (bs : bytes) : list Z :=
  match bs with
  | a :: b :: c :: d :: rest => word_of_bytes a b c d :: words_of_block rest
  | _ => []
  end.

(** Padding: the bit 1, then zeros up to 56 modulo 64 bytes, then the
    length in bits as a 64-bit big-endian integer. *)
Definition length_field (n : Z) : bytes :=
  let bits := (n * 8) mod 18446744073709551616 in
  bytes_of_word (bits / 4294967296) ++ bytes_of_word bits.

Definition pad (m : bytes) : bytes :=
  let n := Z.of_nat (List.length m) in
  m ++ x80 :: repeat x00 (Z.to_nat ((55 - n) mod 64)) ++ length_field n.

(** The message schedule: [w] holds W_0 .. W_(t-1), the next word is W_t. *)
Definition next_word (w : list Z) : Z :=
  let t := List.length w in
  add32 (add32 (add32 (sigma1 (nth (t - 2) w 0)) (nth (t - 7) w 0))
               (sigma0 (nth (t - 15) w 0)))
        (nth (t - 16) w 0).

Fixpoint extend (n : nat) (w : list Z) : list Z :=
  match n with
  | O => w
  | S n' => extend n' (w ++ [next_word w])
  end.

Definition schedule (block : bytes) : list Z := extend 48 (words_of_block block).

Definition round (s : state) (kw : Z * Z) : state :=
  let '(k, w) := kw in
  let t1 := add32 (add32 (add32 (add32 (h7 s) (Sigma1 (h4 s)))
                                (Ch (h4 s) (h5 s) (h6 s))) k) w in
  let t2 := add32 (Sigma0 (h0 s)) (Maj (h0 s) (h1 s) (h2 s)) in
  mkState (add32 t1 t2) (h0 s) (h1 s) (h2 s)
          (add32 (h3 s) t1) (h4 s) (h5 s) (h6 s).

Definition add_state (s r : state) : state :=
  mkState (add32 (h0 s) (h0 r)) (add32 (h1 s) (h1 r))
          (add32 (h2 s) (h2 r)) (add32 (h3 s) (h3 r))
          (add32 (h4 s) (h4 r)) (add32 (h5 s) (h5 r))
          (add32 (h6 s) (h6 r)) (add32 (h7 s) (h7 r)).

Definition compress (s : state) (block : bytes) : state :=
  add_state s (fold_left round (combine K (schedule block)) s).

(** The padded message, 64 bytes at a time. *)
Fixpoint process (n : nat) (s : state) (bs : bytes) : state :=
  match n with
  | O => s
  | S n' => process n' (compress s (firstn 64 bs)) (skipn 64 bs)
  end.

Definition serialize (s : state) : bytes :=
  bytes_of_word (h0 s) ++ bytes_of_word (h1 s) ++
  bytes_of_word (h2 s) ++ bytes_of_word (h3 s) ++
  bytes_of_word (h4 s) ++ bytes_of_word (h5 s) ++
  bytes_of_word (h6 s) ++ bytes_of_word (h7 s).

Definition final_state (m : bytes) : state :=
  let p := pad m in
  process (Nat.div (List.length p) 64) H_init p.

Definition hash (m : bytes) : bytes := serialize (final_state m).

Definition digest_size : nat := 32.
Definition block_size : nat := 64.

End SHA256.

(** Lowercase hexadecimal text of a byte string ([bytes.hex()]), used to
    state published test vectors. *)
Definition hex_digit (d : Z) : Z :=
  if d <? 10 then 48 + d else 87 + d.

Definition hex_of_bytes (bs : bytes) : str :=
  flat_map (fun b => [hex_digit (b2z b / 16); hex_digit (b2z b mod 16)]) bs.


(* ================================================================== *)
(** ** Exceptions and results *)
(* ================================================================== *)

Inductive exn : Type :=
| UnicodeEncodeError (c : Z)       (* the code point that cannot be encoded *)
| UnicodeDecodeError (b : byte)    (* the byte that cannot be decoded *)
| ValueError.

Inductive result (A : Type) : Type :=
| Ok (a : A)
| Raise (e : exn).
Arguments Ok {A} a.
Arguments Raise {A} e.

Definition rbind {A B} (r : result A) (k : A -> result B) : result B :=
  match r with
  | Ok a => k a
  | Raise e => Raise e
  end.

(* ================================================================== *)
(** ** [hashlib]: hash objects *)
(* ================================================================== *)

Module hashlib.

(** The hash constructors that can stand for [digestmod]; the two files
    use [hashlib.sha256] only. *)
Inductive digestmod : Type := sha256.

Definition hash (d : digestmod) : bytes -> bytes :=
  match d with sha256 => SHA256.hash end.

Definition digest_size (d : digestmod) : nat :=
  match d with sha256 => SHA256.digest_size end.

Definition block_size (d : digestmod) : nat :=
  match d with sha256 => SHA256.block_size end.

(** A hash object is determined by the bytes that were fed to it. *)
Record hash_object : Type := mkHash
  { algo : digestmod;
    fed : bytes }.

Definition new (d : digestmod) (data : bytes) : hash_object := mkHash d data.

Definition update (h : hash_object) (data : bytes) : hash_object :=
  mkHash (algo h) (fed h ++ data).

Definition copy (h : hash_object) : hash_object := h.

Definition digest (h : hash_object) : bytes := hash (algo h) (fed h).

End hashlib.

(* ================================================================== *)
(** ** [hmac]: the class [HMAC] of [hmac.py] *)
(* ================================================================== *)

Module hmac.

(** [bytes.translate] with the tables [trans_36] and [trans_5C]:
    [bytes((x ^ 0x36) for x in range(256))] and the same with [0x5C]. *)
Definition trans_36 (b : byte) : byte := z2b (Z.lxor (b2z b) 0x36).
Definition trans_5C (b : byte) : byte := z2b (Z.lxor (b2z b) 0x5C).

(** [key.ljust(n, b'\0')] *)
Definition ljust (key : bytes) (n : nat) : bytes :=
  key ++ repeat x00 (n - List.length key).

Record HMAC : Type := mkHMAC
  { inner : hashlib.hash_object;
    outer : hashlib.hash_object }.

Definition update (h : HMAC) (msg : bytes) : HMAC :=
  mkHMAC (hashlib.update (inner h) msg) (outer h).

(** [hmac.new(key, msg, digestmod)] *)
Definition new (key msg : bytes) (digestmod : hashlib.digestmod) : HMAC :=
  let outer := hashlib.new digestmod [] in
  let inner := hashlib.new digestmod [] in
  let blocksize := hashlib.block_size digestmod in
  let key :=
    if (blocksize <? List.length key)%nat
    then hashlib.digest (hashlib.new digestmod key)
    else key in
  let key := ljust key blocksize in
  let outer := hashlib.update outer (map trans_5C key) in
  let inner := hashlib.update inner (map trans_36 key) in
  update (mkHMAC inner outer) msg.

(** [HMAC.digest()] *)
Definition digest (h : HMAC) : bytes :=
  let o := hashlib.copy (outer h) in
  let o := hashlib.update o (hashlib.digest (inner h)) in
  hashlib.digest o.

End hmac.

(** HMAC as RFC 2104 states it, for a hash function [H] with block length
    [B]: [H(K0 xor opad || H(K0 xor ipad || text))], where [K0] is the key
    (hashed first when longer than [B]) filled with zero bytes up to [B],
    [ipad] is the byte 0x36 and [opad] the byte 0x5C, each [B] times. *)
Module RFC2104.

Fixpoint xor_bytes (xs ys : bytes) : bytes :=
  match xs, ys with
  | x :: xs', y :: ys' => z2b (Z.lxor (b2z x) (b2z y)) :: xor_bytes xs' ys'
  | _, _ => []
  end.

Definition ipad (B : nat) : bytes := repeat (z2b 0x36) B.
Definition opad (B : nat) : bytes := repeat (z2b 0x5C) B.

Definition K0 (H : bytes -> bytes) (B : nat) (K : bytes) : bytes :=
  let K' := if (List.length K <=? B)%nat then K else H K in
  K' ++ repeat x00 (B - List.length K').

Definition HMAC (H : bytes -> bytes) (B : nat) (K text : bytes) : bytes :=
  H (xor_bytes (K0 H B K) (opad B) ++
     H (xor_bytes (K0 H B K) (ipad B) ++ text)).

Definition HMAC_SHA256 (K text : bytes) : bytes := HMAC SHA256.hash 64 K text.

End RFC2104.

(* ================================================================== *)
(** ** [base64]: the standard alphabet of RFC 4648, with padding *)
(* ================================================================== *)

Module base64.

Definition alphabet : bytes :=
  bytes_lit "ABCDEFGHIJKLMNOPQRSTUVWXYZabcdefghijklmnopqrstuvwxyz0123456789+/".

Definition pad_char : byte := "="%byte.

Definition char (i : Z) : byte := nth (Z.to_nat i) alphabet pad_char.

(** Three octets are four groups of six bits. *)
Fixpoint b64encode (s : bytes) : bytes :=
  match s with
  | [] => []
  | [a] =>
      [ char (b2z a / 4); char (b2z a mod 4 * 16); pad_char; pad_char ]
  | [a; b] =>
      [ char (b2z a / 4); char (b2z a mod 4 * 16 + b2z b / 16);
        char (b2z b mod 16 * 4); pad_char ]
  | a :: b :: c :: rest =>
      char (b2z a / 4) :: char (b2z a mod 4 * 16 + b2z b / 16) ::
      char (b2z b mod 16 * 4 + b2z c / 64) :: char (b2z c mod 64) ::
      b64encode rest
  end.

(** The position of a character in the alphabet. *)
Fixpoint index_from (i : Z) (cs : bytes) (c : byte) : option Z :=
  match cs with
  | [] => None
  | x :: cs' => if Byte.eqb x c then Some i else index_from (i + 1) cs' c
  end.

Definition index (c : byte) : option Z := index_from 0 alphabet c.

(** Decoding of padded text, four characters at a time; [None] on text
    that is not canonical base64. *)
Fixpoint b64decode (s : bytes) : option bytes :=
  match s with
  | [] => Some []
  | c0 :: c1 :: c2 :: c3 :: rest =>
      match index c0, index c1 with
      | Some i0, Some i1 =>
          let a := z2b (i0 * 4 + i1 / 16) in
          match index c2, index c3, rest with
          | Some i2, Some i3, _ =>
              let b := z2b (i1 mod 16 * 16 + i2 / 4) in
              let c := z2b (i2 mod 4 * 64 + i3) in
              option_map (fun tl => a :: b :: c :: tl) (b64decode rest)
          | Some i2, None, [] =>
              if Byte.eqb c3 pad_char && (i2 mod 4 =? 0)
              then Some [a; z2b (i1 mod 16 * 16 + i2 / 4)] else None
          | None, None, [] =>
              if Byte.eqb c2 pad_char && Byte.eqb c3 pad_char && (i1 mod 16 =? 0)
              then Some [a] else None
          | _, _, _ => None
          end
      | _, _ => None
      end
  | _ => None
  end.

End base64.

(* ================================================================== *)
(** ** The UTF-8 codec: [str.encode()] and [bytes.decode('utf-8')] *)
(* ================================================================== *)

Module utf8.

(** One code point.  Surrogates have no UTF-8 form: the strict error
    handler raises [UnicodeEncodeError] on them. *)
Definition encode_code_point (c : Z) : result bytes :=
  if (c <? 0) || (1114111 <? c) || is_surrogate c then Raise (UnicodeEncodeError c)
  else if c <? 128 then Ok [z2b c]
  else if c <? 2048 then Ok [z2b (192 + c / 64); z2b (128 + c mod 64)]
  else if c <? 65536 then
    Ok [z2b (224 + c / 4096); z2b (128 + c / 64 mod 64); z2b (128 + c mod 64)]
  else
    Ok [z2b (240 + c / 262144); z2b (128 + c / 4096 mod 64);
        z2b (128 + c / 64 mod 64); z2b (128 + c mod 64)].

Fixpoint encode (s : str) : result bytes :=
  match s with
  | [] => Ok []
  | c :: s' =>
      rbind (encode_code_point c) (fun bs =>
      rbind (encode s') (fun rest => Ok (bs ++ rest)))
  end.

Definition continuation (b : byte) : bool :=
  (128 <=? b2z b) && (b2z b <? 192).

Definition tail (b : byte) : Z := b2z b - 128.

Fixpoint decode (bs : bytes) : result str :=
  match bs with
  | [] => Ok []
  | b0 :: rest =>
      let x := b2z b0 in
      if x <? 128 then rbind (decode rest) (fun s => Ok (x :: s))
      else if x <? 194 then Raise (UnicodeDecodeError b0)
      else if x <? 224 then
        match rest with
        | b1 :: rest1 =>
            if continuation b1
            then rbind (decode rest1) (fun s =>
                   Ok (((x - 192) * 64 + tail b1) :: s))
            else Raise (UnicodeDecodeError b0)
        | _ => Raise (UnicodeDecodeError b0)
        end
      else if x <? 240 then
        match rest with
        | b1 :: b2 :: rest2 =>
            let c := (x - 224) * 4096 + tail b1 * 64 + tail b2 in
            if continuation b1 && continuation b2 && (2048 <=? c)
               && negb (is_surrogate c)
            then rbind (decode rest2) (fun s => Ok (c :: s))
            else Raise (UnicodeDecodeError b0)
        | _ => Raise (UnicodeDecodeError b0)
        end
      else if x <? 245 then
        match rest with
        | b1 :: b2 :: b3 :: rest3 =>
            let c := (x - 240) * 262144 + tail b1 * 4096
                     + tail b2 * 64 + tail b3 in
            if continuation b1 && continuation b2 && continuation b3
               && (65536 <=? c) && (c <=? 1114111)
            then rbind (decode rest3) (fun s => Ok (c :: s))
            else Raise (UnicodeDecodeError b0)
        | _ => Raise (UnicodeDecodeError b0)
        end
      else Raise (UnicodeDecodeError b0)
  end.

End utf8.

(* ================================================================== *)
(** ** [int], [uuid.UUID] and their text *)
(* ================================================================== *)

(** [str(n)] for an [int]: decimal digits, a leading minus sign when
    negative. *)
Definition int_str (n : Z) : str :=
  str_lit (DecimalString.NilEmpty.string_of_int (Z.to_int n)).

(** [w] lowercase hexadecimal digits of [n], most significant first:
    ['%0wx' % n] when [0 <= n < 16^w]. *)
Fixpoint hex_digits (w : nat) (n : Z) : str :=
  match w with
  | O => []
  | S w' => hex_digits w' (n / 16) ++ [hex_digit (n mod 16)]
  end.

Module uuid.

(** A [UUID] object is its 128-bit integer, the attribute [int]. *)
Record UUID : Type := mkUUID { int : Z }.

(** [int.from_bytes(b)], big-endian. *)
Definition from_bytes (b : bytes) : Z :=
  fold_left (fun acc x => acc * 256 + b2z x) b 0.

(** [UUID(bytes=b, version=v)], for [1 <= v <= 8]. *)
Definition UUID_init (b : bytes) (version : Z) : result UUID :=
  if negb (List.length b =? 16)%nat then Raise ValueError
  else
    let int := from_bytes b in
    let int := Z.land int (Z.lnot (Z.shiftl 0xc000 48)) in
    let int := Z.lor int (Z.shiftl 0x8000 48) in
    let int := Z.land int (Z.lnot (Z.shiftl 0xf000 64)) in
    let int := Z.lor int (Z.shiftl version 76) in
    Ok (mkUUID int).

(** [UUID.__str__]: [hex = '%032x' % self.int], then
    ['%s-%s-%s-%s-%s' % (hex[:8], hex[8:12], hex[12:16], hex[16:20], hex[20:])]. *)
Definition slice (lo hi : nat) (s : str) : str := firstn (hi - lo) (skipn lo s).

Definition to_str (u : UUID) : str :=
  let hex := hex_digits 32 (int u) in
  slice 0 8 hex ++ [45] ++ slice 8 12 hex ++ [45] ++ slice 12 16 hex
    ++ [45] ++ slice 16 20 hex ++ [45] ++ skipn 20 hex.

End uuid.

(** The values the two files bind to names and pass around. *)
Inductive pyval : Type :=
| PyInt (n : Z)
| PyStr (s : str)
| PyBytes (b : bytes)
| PyUUID (u : uuid.UUID).

(** [repr] of a [bytes] object, which is also its [str]. *)
Definition bytes_repr (b : bytes) : str :=
  let squote := existsb (fun x => b2z x =? 39) b in
  let dquote := existsb (fun x => b2z x =? 34) b in
  let quote := if squote && negb dquote then 34 else 39 in
  let escape (x : byte) : str :=
    let c := b2z x in
    if (c =? quote) || (c =? 92) then [92; c]
    else if c =? 9 then [92; 116]
    else if c =? 10 then [92; 110]
    else if c =? 13 then [92; 114]
    else if (c <? 32) || (127 <=? c)
         then [92; 120; hex_digit (c / 16); hex_digit (c mod 16)]
    else [c] in
  [98; quote] ++ flat_map escape b ++ [quote].

(** [str(v)], which is also [format(v, '')], the conversion an f-string
    applies to a replacement field without a format specification. *)
Definition py_str (v : pyval) : str :=
  match v with
  | PyInt n => int_str n
  | PyStr s => s
  | PyBytes b => bytes_repr b
  | PyUUID u => uuid.to_str u
  end.

(** The parts of an f-string: literal text and replacement fields. *)
Inductive fpart : Type :=
| Lit (s : string)
| Field (v : pyval).

Definition fstring (parts : list fpart) : str :=
  flat_map (fun p => match p with
                     | Lit s => str_lit s
                     | Field v => py_str v
                     end) parts.

(* ================================================================== *)
(** ** The world outside: the system's random bytes and standard output *)
(* ================================================================== *)

Record World : Type := mkWorld
  { entropy : nat -> byte;   (* the bytes [os.urandom] hands out, in order *)
    drawn : nat;             (* how many of them were handed out so far *)
    stdout : str }.          (* the text written to standard output *)

(** A computation may read and change the world and may raise. *)
Definition M (A : Type) : Type := World -> result A * World.

Definition ret {A} (a : A) : M A := fun w => (Ok a, w).

Definition bind {A B} (m : M A) (k : A -> M B) : M B :=
  fun w => match m w with
           | (Ok a, w') => k a w'
           | (Raise e, w') => (Raise e, w')
           end.

Definition lift {A} (r : result A) : M A := fun w => (r, w).

Declare Scope py_scope.
Delimit Scope py_scope with py.
Notation "x <- m ;; k" := (bind m (fun x => k))
  (at level 61, m at next level, right associativity) : py_scope.
Notation "m ;;; k" := (bind m (fun _ => k))
  (at level 61, right associativity) : py_scope.

Local Open Scope py_scope.

(** [os.urandom(n)] *)
Definition os_urandom (n : nat) : M bytes :=
  fun w => (Ok (map (entropy w) (seq (drawn w) n)),
            mkWorld (entropy w) (drawn w + n) (stdout w)).

(** [uuid.uuid4()]: [UUID(bytes=os.urandom(16), version=4)] *)
Definition uuid4 : M uuid.UUID :=
  b <- os_urandom 16 ;;
  lift (uuid.UUID_init b 4).

(** [print(a, b)]: the [str] of each argument, separated by a space,
    followed by a newline, on standard output. *)
Fixpoint join (sep : str) (ss : list str) : str :=
  match ss with
  | [] => []
  | [s] => s
  | s :: ss' => s ++ sep ++ join sep ss'
  end.

Definition print (args : list pyval) : M unit :=
  fun w => (Ok tt,
            mkWorld (entropy w) (drawn w)
                    (stdout w ++ join [32] (map py_str args) ++ [10])).

(** [s.encode()] and [b.decode('utf-8')] *)
Definition str_encode (s : str) : M bytes := lift (utf8.encode s).
Definition bytes_decode (b : bytes) : M str := lift (utf8.decode b).

(* ================================================================== *)
(** ** [secret.py]: the statements of the script, top to bottom *)
(* ================================================================== *)

Module secret_py.

(** The names the module binds, as they stand when the script ends. *)
Record globals : Type := mkGlobals
  { uid : uuid.UUID;
    total_amount : Z;
    transaction_uuid : uuid.UUID;
    product_code : str;
    message : bytes;
    secret : bytes;
    hmac_sha256 : hmac.HMAC;
    digest : bytes;
    signature : str }.

Definition main : M globals :=
  uid <- uuid4 ;;
  print [PyStr (str_lit "UID: "); PyUUID uid] ;;;
  let total_amount := 110 in
  let transaction_uuid := uid in
  let product_code := str_lit "EPAYTEST" in
  let message :=
    fstring [Lit "total_amount="; Field (PyInt total_amount);
             Lit ",transaction_uuid="; Field (PyUUID uid);
             Lit ",product_code="; Field (PyStr product_code)] in
  message <- str_encode message ;;
  let secret := bytes_lit "8gBm/:&EnhH.1/q" in
  let hmac_sha256 := hmac.new secret message hashlib.sha256 in
  let digest := hmac.digest hmac_sha256 in
  print [PyStr (str_lit "Digest: "); PyBytes digest] ;;;
  signature <- bytes_decode (base64.b64encode digest) ;;
  print [PyStr (str_lit "Signature: "); PyStr signature] ;;;
  ret (mkGlobals uid total_amount transaction_uuid product_code message
                 secret hmac_sha256 digest signature).

End secret_py.

(* ================================================================== *)
(** ** [views.py]: the view function [paymentHandler] *)
(* ================================================================== *)

Module views.

(** What [django.shortcuts.render] is called with.  Loading and filling
    the template is Django's work and is not part of this development:
    the response is the template's name and the context handed over. *)
Record HttpResponse : Type := mkResponse
  { template_name : string;
    context : list (string * pyval) }.

Definition render {Request : Type} (request : Request)
           (template_name : string) (context : list (string * pyval))
  : M HttpResponse :=
  ret (mkResponse template_name context).

Definition paymentHandler {Request : Type} (request : Request)
  : M HttpResponse :=
  uid <- uuid4 ;;
  let total_amount := 110 in
  let transaction_uuid := uid in
  let product_code := str_lit "EPAYTEST" in
  let message :=
    fstring [Lit "total_amount="; Field (PyInt total_amount);
             Lit ",transaction_uuid="; Field (PyUUID uid);
             Lit ",product_code="; Field (PyStr product_code)] in
  message <- str_encode message ;;
  let secret := bytes_lit "8gBm/:&EnhH.1/q" in
  let hmac_sha256 := hmac.new secret message hashlib.sha256 in
  let digest := hmac.digest hmac_sha256 in
  signature <- bytes_decode (base64.b64encode digest) ;;
  let context :=
    [ ("transaction_uuid"%string, PyUUID transaction_uuid);
      ("total_amount"%string, PyInt total_amount);
      ("product_code"%string, PyStr product_code);
      ("signature"%string, PyStr signature) ] in
  render request "index.html" context.

(** [context[key]] *)
Fixpoint lookup (key : string) (d : list (string * pyval)) : option pyval :=
  match d with
  | [] => None
  | (k, v) :: d' => if String.eqb k key then Some v else lookup key d'
  end.

End views.

(* ================================================================== *)
(** ** The signature computation with its inputs left open *)
(* ================================================================== *)

(** Lines 14 to 20 of [views.py] (11 to 17 of [secret.py], the [print]
    aside) as a function of the names they read: [total_amount], [uid],
    [product_code] and [secret]. *)
Module generate.

Definition message (total_amount uid product_code : pyval) : str :=
  fstring [Lit "total_amount="; Field total_amount;
           Lit ",transaction_uuid="; Field uid;
           Lit ",product_code="; Field product_code].

Definition signature (total_amount uid product_code : pyval)
           (secret : bytes) : M str :=
  let message := message total_amount uid product_code in
  message <- str_encode message ;;
  let hmac_sha256 := hmac.new secret message hashlib.sha256 in
  let digest := hmac.digest hmac_sha256 in
  signature <- bytes_decode (base64.b64encode digest) ;;
  ret signature.

End generate.

(* ================================================================== *)
(** ** The f-string under the interpreter's limit on integer digits *)
(* ================================================================== *)

(** Converting an [int] to decimal text raises [ValueError] when the
    number has more digits (the sign not counted) than
    [sys.get_int_max_str_digits()]: 4300 by default, any value from 640
    on, or 0 for no limit.  Text of a [str], a [UUID] (hexadecimal) or a
    [bytes] object is not subject to it.  The same lines 14 to 20, with
    that limit as [limit]: *)
Module digit_limit.

Definition default_max_str_digits : nat := 4300.

Definition int_digits (n : Z) : nat := List.length (int_str (Z.abs n)).

Definition format_int (limit : nat) (n : Z) : result str :=
  if negb (limit =? 0)%nat && (limit <? int_digits n)%nat
  then Raise ValueError
  else Ok (int_str n).

Definition format_value (limit : nat) (v : pyval) : result str :=
  match v with
  | PyInt n => format_int limit n
  | _ => Ok (py_str v)
  end.

(** The replacement fields are formatted from left to right. *)
Fixpoint fstring (limit : nat) (parts : list fpart) : result str :=
  match parts with
  | [] => Ok []
  | Lit s :: rest =>
      rbind (fstring limit rest) (fun t => Ok (str_lit s ++ t))
  | Field v :: rest =>
      rbind (format_value limit v) (fun s =>
      rbind (fstring limit rest) (fun t => Ok (s ++ t)))
  end.

Definition message (limit : nat) (total_amount uid product_code : pyval)
  : result str :=
  fstring limit [Lit "total_amount="; Field total_amount;
                 Lit ",transaction_uuid="; Field uid;
                 Lit ",product_code="; Field product_code].

Definition signature (limit : nat) (total_amount uid product_code : pyval)
           (secret : bytes) : M str :=
  message <- lift (message limit total_amount uid product_code) ;;
  message <- str_encode message ;;
  let hmac_sha256 := hmac.new secret message hashlib.sha256 in
  let digest := hmac.digest hmac_sha256 in
  signature <- bytes_decode (base64.b64encode digest) ;;
  ret signature.

End digit_limit.

(* ================================================================== *)
(** ** Vocabulary of the statements *)
(* ================================================================== *)

(** A letter of the base64 alphabet; a letter or the padding character. *)
Definition b64_text (b : byte) : bool :=
  existsb (Byte.eqb b) base64.alphabet.

Definition b64_char_ok (b : byte) : bool :=
  b64_text b || Byte.eqb b base64.pad_char.

Definition is_ascii (c : Z) : bool := (0 <=? c) && (c <? 128).

(** A code point UTF-8 can carry: in range and not a surrogate. *)
Definition is_scalar (c : Z) : bool :=
  (0 <=? c) && (c <=? 1114111) && negb (is_surrogate c).

(** The text of ASCII bytes. *)
Definition ascii_str (b : bytes) : str := map b2z b.

(** The 16 bytes the next [os.urandom(16)] returns, and the world after it. *)
Definition draw (w : World) : bytes := map (entropy w) (seq (drawn w) 16).

Definition after_draw (w : World) : World :=
  mkWorld (entropy w) (drawn w + 16) (stdout w).

(** The integer of a version-4 UUID made from the integer [x] of 16 bytes. *)
Definition v4_int (x : Z) : Z :=
  Z.lor (Z.land (Z.lor (Z.land x (Z.lnot (Z.shiftl 0xc000 48)))
                       (Z.shiftl 0x8000 48))
                (Z.lnot (Z.shiftl 0xf000 64)))
        (Z.shiftl 4 76).

Definition uuid4_of (b : bytes) : uuid.UUID := uuid.mkUUID (v4_int (uuid.from_bytes b)).

(** [UUID.version] and the two variant bits of [UUID.variant]. *)
Definition uuid_version (u : uuid.UUID) : Z := Z.land (Z.shiftr (uuid.int u) 76) 0xf.
Definition uuid_variant_bits (u : uuid.UUID) : Z := Z.land (Z.shiftr (uuid.int u) 62) 3.

(** The six bits [UUID(..., version=4)] overwrites (62 and 63, the
    variant; 76 to 79, the version) and the values it gives them. *)
Definition v4_fixed (i : Z) : bool :=
  (i =? 62) || (i =? 63) || ((76 <=? i) && (i <=? 79)).

Definition v4_value (i : Z) : bool := (i =? 63) || (i =? 78).

(** The constants of both files. *)
Definition the_secret : bytes := bytes_lit "8gBm/:&EnhH.1/q".
Definition the_product_code : str := str_lit "EPAYTEST".

(** A letter of the base64 alphabet, as a code point: [A-Z], [a-z],
    [0-9], [+] or [/]. *)
Definition b64_letter (c : Z) : bool :=
  ((65 <=? c) && (c <=? 90)) || ((97 <=? c) && (c <=? 122)) ||
  ((48 <=? c) && (c <=? 57)) || (c =? 43) || (c =? 47).

(** The shape of a signature: 43 letters and one [=]. *)
Definition signature_shape (sig : str) : Prop :=
  List.length sig = 44%nat /\
  exists body,
    sig = body ++ [61] /\
    List.length body = 43%nat /\
    Forall (fun c => b64_letter c = true) body.

(** The bytes of the message both files sign when the UUID is [u]. *)
Definition the_message (u : uuid.UUID) : bytes :=
  map z2b (generate.message (PyInt 110) (PyUUID u) (PyStr the_product_code)).

(** The text of the signature over the message bytes [m] under [key]. *)
Definition signature_text (key m : bytes) : str :=
  ascii_str (base64.b64encode (RFC2104.HMAC_SHA256 key m)).

(** The known vector: total_amount 110, the UUID below, product code
    EPAYTEST, the secret of the two files. *)
Definition vector_uuid : str := str_lit "00000000-0000-4000-8000-000000000000".

Definition vector_uuid_object : uuid.UUID :=
  uuid.mkUUID 0x00000000000040008000000000000000.

Definition vector_message : str :=
  str_lit "total_amount=110,transaction_uuid=00000000-0000-4000-8000-000000000000,product_code=EPAYTEST".

Definition vector_message_bytes : bytes :=
  bytes_lit "total_amount=110,transaction_uuid=00000000-0000-4000-8000-000000000000,product_code=EPAYTEST".

Definition vector_signature : str :=
  str_lit "wf57eoj0tRVS50vwciQNA5ihZpX9pzObL3LqlF3zUjg=".

(** What the script binds and what the view returns at the known vector. *)
Definition vector_globals : secret_py.globals :=
  secret_py.mkGlobals vector_uuid_object 110 vector_uuid_object
    the_product_code vector_message_bytes the_secret
    (hmac.new the_secret vector_message_bytes hashlib.sha256)
    (RFC2104.HMAC_SHA256 the_secret vector_message_bytes)
    vector_signature.

Definition vector_response : views.HttpResponse :=
  views.mkResponse "index.html"
    [ ("transaction_uuid"%string, PyUUID vector_uuid_object);
      ("total_amount"%string, PyInt 110);
      ("product_code"%string, PyStr the_product_code);
      ("signature"%string, PyStr vector_signature) ].

(** The signature at the known vector with total_amount 111 in place of 110. *)
Definition vector_signature_111 : str :=
  str_lit "fL9sJZGRiFsJdSIMU20dCJImN9mqcIbB2VJfxWucktM=".

(** Two tuples (integer, string, string) that agree on two fields and
    differ in the remaining one. *)
Definition one_field_differs (a1 : Z) (u1 p1 : str) (a2 : Z) (u2 p2 : str)
  : Prop :=
  (a1 <> a2 /\ u1 = u2 /\ p1 = p2) \/
  (a1 = a2 /\ u1 <> u2 /\ p1 = p2) \/
  (a1 = a2 /\ u1 = u2 /\ p1 <> p2).

(** What [paymentHandler] returns when the UUID drawn is [u]. *)
Definition response_of (u : uuid.UUID) : views.HttpResponse :=
  views.mkResponse "index.html"
    [ ("transaction_uuid"%string, PyUUID u);
      ("total_amount"%string, PyInt 110);
      ("product_code"%string, PyStr the_product_code);
      ("signature"%string,
       PyStr (signature_text the_secret (the_message u))) ].

(** The three lines the script prints when the UUID drawn is [u]. *)
Definition script_output (u : uuid.UUID) : str :=
  (str_lit "UID: " ++ [32] ++ uuid.to_str u ++ [10]) ++
  (str_lit "Digest: " ++ [32]
     ++ bytes_repr (RFC2104.HMAC_SHA256 the_secret (the_message u)) ++ [10]) ++
  (str_lit "Signature: " ++ [32]
     ++ signature_text the_secret (the_message u) ++ [10]).

(** The same at the known vector. *)
Definition vector_stdout : str :=
  str_lit "UID:  00000000-0000-4000-8000-000000000000" ++ [10] ++
  str_lit "Digest:  b'\xc1\xfe{z\x88\xf4\xb5\x15R\xe7K\xf0r$\r\x03\x98\xa1f\x95\xfd\xa73\x9b/r\xea\x94]\xf3R8'" ++ [10] ++
  str_lit "Signature:  wf57eoj0tRVS50vwciQNA5ihZpX9pzObL3LqlF3zUjg=" ++ [10].

(** A world whose random source hands out 16 bytes [a], then [b] forever. *)
Definition two_draws_world (a b : byte) : World :=
  mkWorld (fun n => if (n <? 16)%nat then a else b) 0 [].

(** A world whose random source hands out the byte [b] forever. *)
Definition constant_world (b : byte) : World := mkWorld (fun _ => b) 0 [].

(** A value whose text the interpreter produces under the limit [limit]
    (0: no limit); a limit the interpreter accepts. *)
Definition within_limit (limit : nat) (v : pyval) : bool :=
  match v with
  | PyInt n => (limit =? 0)%nat || (digit_limit.int_digits n <=? limit)%nat
  | _ => true
  end.

Definition admissible_limit (limit : nat) : Prop :=
  limit = 0%nat \/ (640 <= limit)%nat.

(** A lowercase hexadecimal digit; a printable ASCII character; a text
    without a comma. *)
Definition is_hex_lower (c : Z) : bool :=
  ((48 <=? c) && (c <=? 57)) || ((97 <=? c) && (c <=? 102)).

Definition is_printable (c : Z) : bool := (32 <=? c) && (c <=? 126).

Definition no_comma (s : str) : bool := forallb (fun c => negb (c =? 44)) s.

(** The text of a version-4 UUID: 8-4-4-4-12 lowercase hexadecimal
    digits between dashes, the third group starting with [4], the fourth
    with [8], [9], [a] or [b]. *)
Definition uuid4_text_shape (s : str) : Prop :=
  exists (g1 g2 g3 : str) (v : Z) (g4 g5 : str),
    s = g1 ++ [45] ++ g2 ++ [45] ++ (52 :: g3) ++ [45] ++ (v :: g4)
           ++ [45] ++ g5 /\
    List.length g1 = 8%nat /\ List.length g2 = 4%nat /\
    List.length g3 = 3%nat /\ List.length g4 = 3%nat /\
    List.length g5 = 12%nat /\
    Forall (fun c => is_hex_lower c = true) (g1 ++ g2 ++ g3 ++ g4 ++ g5) /\
    (v = 56 \/ v = 57 \/ v = 97 \/ v = 98).

(* ================================================================== *)
(** * Properties *)
(* ================================================================== *)

(** Heavy functions stay folded unless a proof unfolds them. *)
Arguments SHA256.hash : simpl never.
Arguments SHA256.final_state : simpl never.
Arguments base64.b64encode : simpl nomatch.
Arguments utf8.encode_code_point : simpl never.
Arguments int_str : simpl never.
Arguments uuid.to_str : simpl never.
Arguments bytes_repr : simpl never.

(** ** The library functions on published vectors *)

(** FIPS 180-4: the one-block and the two-block message, and the empty one. *)
Example sha256_abc :
  hex_of_bytes (SHA256.hash (bytes_lit "abc")) =
  str_lit "ba7816bf8f01cfea414140de5dae2223b00361a396177a9cb410ff61f20015ad".
Proof. vm_compute. reflexivity. Qed.

Example sha256_empty :
  hex_of_bytes (SHA256.hash []) =
  str_lit "e3b0c44298fc1c149afbf4c8996fb92427ae41e4649b934ca495991b7852b855".
Proof. vm_compute. reflexivity. Qed.

Example sha256_two_blocks :
  hex_of_bytes (SHA256.hash
    (bytes_lit "abcdbcdecdefdefgefghfghighijhijkijkljklmklmnlmnomnopnopq")) =
  str_lit "248d6a61d20638b8e5c026930c3e6039a33ce45964ff2167f6ecedd419db06c1".
Proof. vm_compute. reflexivity. Qed.

(** RFC 4231, test case 2, through the class and through the formula. *)
Example hmac_sha256_rfc4231_case2 :
  hex_of_bytes (hmac.digest (hmac.new (bytes_lit "Jefe")
                  (bytes_lit "what do ya want for nothing?") hashlib.sha256)) =
  str_lit "5bdcc146bf60754e6a042426089575c75a003f089d2739839dec58b964ec3843" /\
  hex_of_bytes (RFC2104.HMAC_SHA256 (bytes_lit "Jefe")
                  (bytes_lit "what do ya want for nothing?")) =
  str_lit "5bdcc146bf60754e6a042426089575c75a003f089d2739839dec58b964ec3843".
Proof. split; vm_compute; reflexivity. Qed.

(** RFC 4231, test case 6: a key longer than the block is hashed first. *)
Example hmac_sha256_rfc4231_case6 :
  hex_of_bytes (hmac.digest (hmac.new (repeat xaa 131)
    (bytes_lit "Test Using Larger Than Block-Size Key - Hash Key First")
    hashlib.sha256)) =
  str_lit "60e431591ee0b67f0d8a26aacbf5b77f8e0bc6213728c5140546040f0ee37f54".
Proof. vm_compute. reflexivity. Qed.

(** RFC 4648, section 10. *)
Example b64encode_rfc4648 :
  base64.b64encode (bytes_lit "f") = bytes_lit "Zg==" /\
  base64.b64encode (bytes_lit "fo") = bytes_lit "Zm8=" /\
  base64.b64encode (bytes_lit "foo") = bytes_lit "Zm9v" /\
  base64.b64encode (bytes_lit "foob") = bytes_lit "Zm9vYg==" /\
  base64.b64encode (bytes_lit "fooba") = bytes_lit "Zm9vYmE=" /\
  base64.b64encode (bytes_lit "foobar") = bytes_lit "Zm9vYmFy".
Proof. repeat split; vm_compute; reflexivity. Qed.

(** [str.encode()] on one, two, three and four bytes per character, and on
    a lone surrogate. *)
Example encode_examples :
  utf8.encode [65; 233; 8364; 128512]
    = Ok [x41; xc3; xa9; xe2; x82; xac; xf0; x9f; x98; x80] /\
  utf8.encode [65; 55296] = Raise (UnicodeEncodeError 55296).
Proof. split; vm_compute; reflexivity. Qed.

Example int_str_examples :
  int_str 110 = str_lit "110" /\ int_str 0 = str_lit "0" /\
  int_str (-5) = str_lit "-5".
Proof. repeat split; vm_compute; reflexivity. Qed.

Example uuid_str_example :
  uuid.to_str (uuid.mkUUID 0x123456789abcdef0123456789abcdef0)
  = str_lit "12345678-9abc-def0-1234-56789abcdef0".
Proof. vm_compute. reflexivity. Qed.

Example bytes_repr_example :
  bytes_repr [x00; x27; x41; x5c; xff; x0a] = [98; 34; 92; 120; 48; 48; 39; 65; 92; 92; 92; 120; 102; 102; 92; 110; 34].
Proof. vm_compute. reflexivity. Qed.

(** ** Bytes *)

Lemma b2z_range (b : byte) : 0 <= b2z b < 256.
Proof.
  unfold b2z. pose proof (Byte.to_N_bounded b). lia.
Qed.

Lemma z2b_b2z (b : byte) : z2b (b2z b) = b.
Proof.
  unfold z2b. pose proof (b2z_range b) as Hr.
  rewrite Z.mod_small by exact Hr.
  unfold b2z. rewrite N2Z.id, Byte.of_to_N. reflexivity.
Qed.

Lemma b2z_z2b (z : Z) : b2z (z2b z) = z mod 256.
Proof.
  unfold z2b, b2z.
  assert (Hm : 0 <= z mod 256 < 256) by (apply Z.mod_pos_bound; lia).
  destruct (Byte.of_N (Z.to_N (z mod 256))) as [b|] eqn:E.
  - apply Byte.to_of_N in E. rewrite E. rewrite Z2N.id; lia.
  - apply Byte.of_N_None_iff in E. lia.
Qed.

Lemma b2z_z2b_small (z : Z) : 0 <= z < 256 -> b2z (z2b z) = z.
Proof. intros H. rewrite b2z_z2b. apply Z.mod_small, H. Qed.

Lemma b2z_inj (a b : byte) : b2z a = b2z b -> a = b.
Proof. intros H. rewrite <- (z2b_b2z a), <- (z2b_b2z b), H. reflexivity. Qed.

Lemma map_b2z_inj (xs ys : bytes) : map b2z xs = map b2z ys -> xs = ys.
Proof.
  revert ys. induction xs as [|x xs IH]; intros [|y ys] H; simpl in H;
    try discriminate; [reflexivity|].
  injection H as Hx Hr. f_equal; [apply b2z_inj, Hx | apply IH, Hr].
Qed.

Lemma forallb_Forall {A} (p : A -> bool) (l : list A) :
  forallb p l = true -> Forall (fun x => p x = true) l.
Proof.
  intros H. apply Forall_forall. intros x Hx.
  exact (proj1 (forallb_forall p l) H x Hx).
Qed.

(** Lists three elements at a time, the way base64 reads them. *)
Lemma list_ind3 {A} (P : list A -> Prop) :
  P [] -> (forall a, P [a]) -> (forall a b, P [a; b]) ->
  (forall a b c l, P l -> P (a :: b :: c :: l)) ->
  forall l, P l.
Proof.
  intros H0 H1 H2 H3 l.
  assert (H : P l /\ (forall a, P (a :: l)) /\ (forall a b, P (a :: b :: l))).
  { induction l as [|x l [IH0 [IH1 IH2]]].
    - auto.
    - repeat split; auto. }
  exact (proj1 H).
Qed.

(** ** SHA-256 and HMAC: sizes, and the class against RFC 2104 *)

Lemma sha256_length (m : bytes) : List.length (SHA256.hash m) = 32%nat.
Proof. reflexivity. Qed.

Lemma xor_bytes_repeat (f : byte -> byte) (c : byte) (k : bytes) (n : nat) :
  (forall b, f b = z2b (Z.lxor (b2z b) (b2z c))) ->
  List.length k = n ->
  RFC2104.xor_bytes k (repeat c n) = map f k.
Proof.
  intros Hf. revert n. induction k as [|x k IH]; intros n Hn; simpl in *.
  - reflexivity.
  - destruct n as [|n]; [discriminate|]. simpl.
    rewrite Hf, IH by lia. reflexivity.
Qed.

Lemma ljust_length (k : bytes) (n : nat) :
  (List.length k <= n)%nat -> List.length (hmac.ljust k n) = n.
Proof.
  intros H. unfold hmac.ljust. rewrite length_app, repeat_length. lia.
Qed.

(** [hmac.new(key, msg, hashlib.sha256).digest()] is HMAC-SHA256 of RFC 2104. *)
Lemma hmac_digest_rfc2104 (key msg : bytes) :
  hmac.digest (hmac.new key msg hashlib.sha256) = RFC2104.HMAC_SHA256 key msg.
Proof.
  unfold hmac.digest, hmac.new, hmac.update, hashlib.update, hashlib.copy,
    hashlib.digest, hashlib.new, RFC2104.HMAC_SHA256, RFC2104.HMAC.
  cbn [hmac.inner hmac.outer hashlib.algo hashlib.fed
       hashlib.hash hashlib.block_size app].
  change SHA256.block_size with 64%nat.
  assert (HK : hmac.ljust
                 (if (64 <? List.length key)%nat then SHA256.hash key else key)
                 64 = RFC2104.K0 SHA256.hash 64 key).
  { unfold RFC2104.K0, hmac.ljust.
    destruct (64 <? List.length key)%nat eqn:E.
    - apply Nat.ltb_lt in E.
      destruct (List.length key <=? 64)%nat eqn:E'; [apply Nat.leb_le in E'; lia|].
      reflexivity.
    - apply Nat.ltb_ge in E.
      destruct (List.length key <=? 64)%nat eqn:E'; [reflexivity|].
      apply Nat.leb_gt in E'. lia. }
  rewrite HK.
  assert (HL : List.length (RFC2104.K0 SHA256.hash 64 key) = 64%nat).
  { rewrite <- HK. apply ljust_length.
    destruct (64 <? List.length key)%nat eqn:E.
    - rewrite sha256_length. lia.
    - apply Nat.ltb_ge in E. exact E. }
  unfold RFC2104.opad, RFC2104.ipad.
  rewrite (xor_bytes_repeat hmac.trans_5C), (xor_bytes_repeat hmac.trans_36);
    try exact HL.
  - reflexivity.
  - intros b. unfold hmac.trans_36. rewrite b2z_z2b_small by lia. reflexivity.
  - intros b. unfold hmac.trans_5C. rewrite b2z_z2b_small by lia. reflexivity.
Qed.

Lemma hmac_sha256_length (key msg : bytes) :
  List.length (RFC2104.HMAC_SHA256 key msg) = 32%nat.
Proof. apply sha256_length. Qed.

(** ** base64 *)

Arguments base64.char : simpl never.
Arguments base64.index : simpl never.

Lemma index_char (i : Z) : 0 <= i < 64 -> base64.index (base64.char i) = Some i.
Proof.
  intros Hi.
  assert (Hall : forallb (fun n => match base64.index (base64.char (Z.of_nat n)) with
                                   | Some j => j =? Z.of_nat n
                                   | None => false
                                   end) (seq 0 64) = true)
    by (vm_compute; reflexivity).
  pose proof (proj1 (forallb_forall _ _) Hall (Z.to_nat i)) as H.
  cbv beta in H. rewrite Z2Nat.id in H by lia.
  destruct (base64.index (base64.char i)) as [j|].
  - f_equal. apply Z.eqb_eq. apply H. apply in_seq. lia.
  - discriminate H. apply in_seq. lia.
Qed.

Lemma char_text (i : Z) : 0 <= i < 64 -> b64_text (base64.char i) = true.
Proof.
  intros Hi.
  assert (Hall : forallb (fun n => b64_text (base64.char (Z.of_nat n)))
                         (seq 0 64) = true)
    by (vm_compute; reflexivity).
  pose proof (proj1 (forallb_forall _ _) Hall (Z.to_nat i)) as H.
  cbv beta in H. rewrite Z2Nat.id in H by lia. apply H. apply in_seq. lia.
Qed.

Lemma index_pad : base64.index base64.pad_char = None.
Proof. vm_compute. reflexivity. Qed.

Lemma pad_not_text : b64_text base64.pad_char = false.
Proof. vm_compute. reflexivity. Qed.

Lemma b64_text_ascii (b : byte) : b64_text b = true -> b2z b < 128.
Proof.
  unfold b64_text. intros H. apply existsb_exists in H.
  destruct H as [x [Hin Hx]]. apply Byte.byte_dec_bl in Hx. subst x.
  assert (Hall : forallb (fun x => b2z x <? 128) base64.alphabet = true)
    by (vm_compute; reflexivity).
  apply Z.ltb_lt. exact (proj1 (forallb_forall _ _) Hall b Hin).
Qed.

Ltac byte_arith :=
  repeat match goal with
         | b : byte |- _ =>
             lazymatch goal with
             | H : 0 <= b2z b < 256 |- _ => fail
             | _ => pose proof (b2z_range b)
             end
         end;
  Z.div_mod_to_equations; lia.

(** Decoding undoes encoding: [b64encode] loses nothing. *)
Lemma b64decode_b64encode (s : bytes) :
  base64.b64decode (base64.b64encode s) = Some s.
Proof.
  induction s as [|a|a b|a b c l IH] using list_ind3.
  - reflexivity.
  - cbn [base64.b64encode base64.b64decode].
    rewrite !index_char by byte_arith. rewrite index_pad.
    replace (Byte.eqb base64.pad_char base64.pad_char) with true by reflexivity.
    replace (b2z a mod 4 * 16 mod 16 =? 0) with true
      by (symmetry; apply Z.eqb_eq; byte_arith).
    cbn [andb]. f_equal. f_equal.
    rewrite <- (z2b_b2z a) at 3. f_equal. byte_arith.
  - cbn [base64.b64encode base64.b64decode].
    rewrite !index_char by byte_arith. rewrite index_pad.
    replace (Byte.eqb base64.pad_char base64.pad_char) with true by reflexivity.
    replace (b2z b mod 16 * 4 mod 4 =? 0) with true
      by (symmetry; apply Z.eqb_eq; byte_arith).
    cbn [andb]. f_equal. f_equal; [|f_equal].
    + rewrite <- (z2b_b2z a) at 3. f_equal. byte_arith.
    + rewrite <- (z2b_b2z b) at 3. f_equal. byte_arith.
  - cbn [base64.b64encode base64.b64decode].
    rewrite !index_char by byte_arith. rewrite IH.
    cbn [option_map]. f_equal. f_equal; [|f_equal; [|f_equal]].
    + rewrite <- (z2b_b2z a) at 3. f_equal. byte_arith.
    + rewrite <- (z2b_b2z b) at 3. f_equal. byte_arith.
    + rewrite <- (z2b_b2z c) at 3. f_equal. byte_arith.
Qed.

Lemma b64encode_inj (s t : bytes) :
  base64.b64encode s = base64.b64encode t -> s = t.
Proof.
  intros H. apply (f_equal base64.b64decode) in H.
  rewrite !b64decode_b64encode in H. injection H as H. exact H.
Qed.

(** Every character of the output is a letter of the alphabet or [=]. *)
Lemma b64encode_chars (s : bytes) :
  Forall (fun b => b64_char_ok b = true) (base64.b64encode s).
Proof.
  assert (Hc : forall i, 0 <= i < 64 -> b64_char_ok (base64.char i) = true).
  { intros i Hi. unfold b64_char_ok. rewrite char_text by exact Hi. reflexivity. }
  induction s as [|a|a b|a b c l IH] using list_ind3;
    cbn [base64.b64encode]; repeat constructor;
    try (apply Hc; byte_arith); exact IH.
Qed.

Lemma b64_char_ok_ascii (b : byte) : b64_char_ok b = true -> b2z b < 128.
Proof.
  unfold b64_char_ok. intros H. apply orb_true_iff in H. destruct H as [H|H].
  - apply b64_text_ascii, H.
  - apply Byte.byte_dec_bl in H. subst b. vm_compute. reflexivity.
Qed.

(** ** UTF-8 on ASCII text *)

Lemma decode_ascii (b : bytes) :
  Forall (fun x => b2z x < 128) b -> utf8.decode b = Ok (map b2z b).
Proof.
  induction 1 as [|x b Hx _ IH].
  - reflexivity.
  - cbn [utf8.decode map].
    replace (b2z x <? 128) with true by (symmetry; apply Z.ltb_lt, Hx).
    rewrite IH. reflexivity.
Qed.

Lemma decode_b64encode (s : bytes) :
  utf8.decode (base64.b64encode s) = Ok (map b2z (base64.b64encode s)).
Proof.
  apply decode_ascii. eapply Forall_impl; [|apply b64encode_chars].
  intros b. apply b64_char_ok_ascii.
Qed.

(** ** Running the computations *)

Arguments str_lit : simpl never.
Arguments bytes_lit : simpl never.
Arguments hmac.new : simpl never.
Arguments hmac.digest : simpl never.

Lemma draw_length (w : World) : List.length (draw w) = 16%nat.
Proof. unfold draw. rewrite length_map, length_seq. reflexivity. Qed.

Lemma UUID_init_v4 (b : bytes) :
  List.length b = 16%nat -> uuid.UUID_init b 4 = Ok (uuid4_of b).
Proof.
  intros H. unfold uuid.UUID_init. rewrite H. reflexivity.
Qed.

Lemma uuid4_run (w : World) : uuid4 w = (Ok (uuid4_of (draw w)), after_draw w).
Proof.
  unfold uuid4, bind, os_urandom, lift. fold (draw w).
  rewrite UUID_init_v4 by apply draw_length. reflexivity.
Qed.

Lemma message_parts (total_amount uid product_code : pyval) :
  generate.message total_amount uid product_code =
  str_lit "total_amount=" ++ py_str total_amount ++
  str_lit ",transaction_uuid=" ++ py_str uid ++
  str_lit ",product_code=" ++ py_str product_code.
Proof.
  unfold generate.message, fstring. cbn [flat_map].
  rewrite app_nil_r. reflexivity.
Qed.

(** The signature computation as a function of the message's encoding. *)
Lemma signature_run (total_amount uid product_code : pyval) (secret : bytes)
      (w : World) :
  generate.signature total_amount uid product_code secret w =
  (rbind (utf8.encode (generate.message total_amount uid product_code))
         (fun m => Ok (signature_text secret m)), w).
Proof.
  unfold generate.signature, bind, str_encode, bytes_decode, lift, ret.
  destruct (utf8.encode _) as [m|e]; cbn [rbind]; [|reflexivity].
  rewrite decode_b64encode, hmac_digest_rfc2104. reflexivity.
Qed.

(** [paymentHandler] is: draw a UUID, compute the signature of the three
    fields under the secret, hand the four values to [render]. *)
Lemma paymentHandler_run {Request : Type} (request : Request) (w : World) :
  views.paymentHandler request w =
  let uid := uuid4_of (draw w) in
  match generate.signature (PyInt 110) (PyUUID uid) (PyStr the_product_code)
                           the_secret (after_draw w) with
  | (Ok signature, w') =>
      (Ok (views.mkResponse "index.html"
             [ ("transaction_uuid"%string, PyUUID uid);
               ("total_amount"%string, PyInt 110);
               ("product_code"%string, PyStr the_product_code);
               ("signature"%string, PyStr signature) ]), w')
  | (Raise e, w') => (Raise e, w')
  end.
Proof.
  unfold views.paymentHandler. unfold bind at 1. rewrite uuid4_run.
  cbv zeta. rewrite signature_run.
  unfold bind, str_encode, bytes_decode, lift, views.render, ret.
  fold the_product_code. fold the_secret.
  change (fstring _) with
    (generate.message (PyInt 110) (PyUUID (uuid4_of (draw w))) (PyStr the_product_code)).
  destruct (utf8.encode _) as [m|e]; cbn [rbind]; [|reflexivity].
  rewrite decode_b64encode, hmac_digest_rfc2104. reflexivity.
Qed.

(** ** When [str.encode()] succeeds *)

Lemma encode_code_point_ok (c : Z) :
  is_scalar c = true -> exists bs, utf8.encode_code_point c = Ok bs.
Proof.
  unfold is_scalar, utf8.encode_code_point. intros H.
  apply andb_true_iff in H. destruct H as [H Hs].
  apply andb_true_iff in H. destruct H as [H0 H1].
  apply negb_true_iff in Hs. rewrite Hs.
  replace (c <? 0) with false by (symmetry; apply Z.ltb_ge; lia).
  replace (1114111 <? c) with false by (symmetry; apply Z.ltb_ge; lia).
  cbn [orb].
  destruct (c <? 128); [eauto|].
  destruct (c <? 2048); [eauto|].
  destruct (c <? 65536); eauto.
Qed.

Lemma encode_code_point_raise (c : Z) (e : exn) :
  utf8.encode_code_point c = Raise e ->
  e = UnicodeEncodeError c /\ is_scalar c = false.
Proof.
  unfold is_scalar, utf8.encode_code_point.
  destruct (c <? 0) eqn:E0; cbn [orb].
  - intros H. injection H as <-. split; [reflexivity|].
    replace (0 <=? c) with false by (symmetry; apply Z.leb_gt; lia). reflexivity.
  - destruct (1114111 <? c) eqn:E1; cbn [orb].
    + intros H. injection H as <-. split; [reflexivity|].
      replace (c <=? 1114111) with false by (symmetry; apply Z.leb_gt; lia).
      rewrite andb_false_r. reflexivity.
    + destruct (is_surrogate c) eqn:Es.
      * intros H. injection H as <-. split; [reflexivity|]. apply andb_false_r.
      * destruct (c <? 128); [discriminate|].
        destruct (c <? 2048); [discriminate|].
        destruct (c <? 65536); discriminate.
Qed.

Lemma encode_ok (s : str) :
  Forall (fun c => is_scalar c = true) s -> exists bs, utf8.encode s = Ok bs.
Proof.
  induction 1 as [|c s Hc _ [rest IH]].
  - exists []. reflexivity.
  - destruct (encode_code_point_ok c Hc) as [bs Hbs].
    exists (bs ++ rest). cbn [utf8.encode]. rewrite Hbs, IH. reflexivity.
Qed.

Lemma encode_raise (s : str) (e : exn) :
  utf8.encode s = Raise e ->
  exists c, e = UnicodeEncodeError c /\ In c s /\ is_scalar c = false.
Proof.
  induction s as [|c s IH]; cbn [utf8.encode]; [discriminate|].
  destruct (utf8.encode_code_point c) as [bs|e'] eqn:Ec; cbn [rbind].
  - destruct (utf8.encode s) as [rest|e'']; cbn [rbind]; [discriminate|].
    intros H. injection H as <-.
    destruct (IH eq_refl) as [c' [He [Hin Hs]]].
    exists c'. repeat split; [exact He | right; exact Hin | exact Hs].
  - intros H. injection H as <-.
    destruct (encode_code_point_raise c e' Ec) as [He Hs].
    exists c. repeat split; [exact He | left; reflexivity | exact Hs].
Qed.

Lemma is_ascii_scalar (c : Z) : is_ascii c = true -> is_scalar c = true.
Proof.
  unfold is_ascii, is_scalar, is_surrogate. intros H.
  apply andb_true_iff in H. destruct H as [H0 H1].
  apply Z.leb_le in H0. apply Z.ltb_lt in H1.
  replace (0 <=? c) with true by (symmetry; apply Z.leb_le; lia).
  replace (c <=? 1114111) with true by (symmetry; apply Z.leb_le; lia).
  replace (55296 <=? c) with false by (symmetry; apply Z.leb_gt; lia).
  reflexivity.
Qed.

(** ASCII text is encoded one byte for one character. *)
Lemma encode_ascii (s : str) :
  Forall (fun c => is_ascii c = true) s -> utf8.encode s = Ok (map z2b s).
Proof.
  induction 1 as [|c s Hc _ IH].
  - reflexivity.
  - cbn [utf8.encode map]. rewrite IH.
    unfold utf8.encode_code_point.
    pose proof (is_ascii_scalar c Hc) as Hs.
    unfold is_ascii in Hc. apply andb_true_iff in Hc. destruct Hc as [H0 H1].
    apply Z.leb_le in H0.
    unfold is_scalar in Hs. apply andb_true_iff in Hs. destruct Hs as [_ Hs].
    apply negb_true_iff in Hs. rewrite Hs, H1.
    replace (c <? 0) with false by (symmetry; apply Z.ltb_ge; lia).
    replace (1114111 <? c) with false
      by (symmetry; apply Z.ltb_ge; apply Z.ltb_lt in H1; lia).
    reflexivity.
Qed.

(** ** The text of [int] and [UUID] values is ASCII *)

Lemma str_lit_cons (c : ascii) (s : string) :
  str_lit (String c s) = b2z (byte_of_ascii c) :: str_lit s.
Proof. reflexivity. Qed.

Lemma string_of_uint_ascii (d : Decimal.uint) :
  Forall (fun c => is_ascii c = true) (str_lit (DecimalString.NilEmpty.string_of_uint d)).
Proof.
  induction d; cbn [DecimalString.NilEmpty.string_of_uint];
    [constructor | rewrite str_lit_cons; constructor; [reflexivity | assumption] ..].
Qed.

Lemma int_str_ascii (n : Z) : Forall (fun c => is_ascii c = true) (int_str n).
Proof.
  unfold int_str. destruct (Z.to_int n) as [d|d]; cbn [DecimalString.NilEmpty.string_of_int].
  - apply string_of_uint_ascii.
  - rewrite str_lit_cons. constructor; [reflexivity | apply string_of_uint_ascii].
Qed.

Lemma hex_digit_ascii (d : Z) : 0 <= d < 16 -> is_ascii (hex_digit d) = true.
Proof.
  intros H. unfold is_ascii, hex_digit.
  destruct (d <? 10); apply andb_true_iff; split;
    try (apply Z.leb_le; lia); apply Z.ltb_lt; lia.
Qed.

Lemma hex_digits_ascii (w : nat) (n : Z) :
  Forall (fun c => is_ascii c = true) (hex_digits w n).
Proof.
  revert n. induction w as [|w IH]; intros n; cbn [hex_digits].
  - constructor.
  - apply Forall_app. split; [apply IH|].
    constructor; [|constructor].
    apply hex_digit_ascii. apply Z.mod_pos_bound. lia.
Qed.

Lemma Forall_firstn {A} (P : A -> Prop) (n : nat) (l : list A) :
  Forall P l -> Forall P (firstn n l).
Proof.
  intros H. rewrite <- (firstn_skipn n l) in H.
  apply Forall_app in H. exact (proj1 H).
Qed.

Lemma Forall_skipn {A} (P : A -> Prop) (n : nat) (l : list A) :
  Forall P l -> Forall P (skipn n l).
Proof.
  intros H. rewrite <- (firstn_skipn n l) in H.
  apply Forall_app in H. exact (proj2 H).
Qed.

Lemma uuid_to_str_ascii (u : uuid.UUID) :
  Forall (fun c => is_ascii c = true) (uuid.to_str u).
Proof.
  unfold uuid.to_str, uuid.slice.
  pose proof (hex_digits_ascii 32 (uuid.int u)) as H.
  set (hex := hex_digits 32 (uuid.int u)) in *.
  assert (Hd : Forall (fun c => is_ascii c = true) [45])
    by (constructor; [reflexivity | constructor]).
  repeat first
    [ apply Forall_firstn
    | exact H
    | exact Hd
    | apply Forall_skipn
    | apply Forall_app; split ].
Qed.

Lemma str_lit_ascii_check (s : string) :
  forallb is_ascii (str_lit s) = true ->
  Forall (fun c => is_ascii c = true) (str_lit s).
Proof. apply forallb_Forall. Qed.

(** The message of the two files is ASCII whatever the UUID. *)
Lemma message_ascii (n : Z) (u : uuid.UUID) :
  Forall (fun c => is_ascii c = true)
         (generate.message (PyInt n) (PyUUID u) (PyStr the_product_code)).
Proof.
  rewrite message_parts. cbn [py_str].
  apply Forall_app; split; [apply str_lit_ascii_check; vm_compute; reflexivity|].
  apply Forall_app; split; [apply int_str_ascii|].
  apply Forall_app; split; [apply str_lit_ascii_check; vm_compute; reflexivity|].
  apply Forall_app; split; [apply uuid_to_str_ascii|].
  apply Forall_app; split; apply str_lit_ascii_check; vm_compute; reflexivity.
Qed.

Lemma the_message_encoded (u : uuid.UUID) :
  utf8.encode (generate.message (PyInt 110) (PyUUID u) (PyStr the_product_code))
  = Ok (the_message u).
Proof. apply encode_ascii, message_ascii. Qed.

(** [paymentHandler] returns, whatever the request and the world. *)
Lemma paymentHandler_returns {Request : Type} (request : Request) (w : World) :
  views.paymentHandler request w =
  (Ok (views.mkResponse "index.html"
         [ ("transaction_uuid"%string, PyUUID (uuid4_of (draw w)));
           ("total_amount"%string, PyInt 110);
           ("product_code"%string, PyStr the_product_code);
           ("signature"%string,
            PyStr (signature_text the_secret (the_message (uuid4_of (draw w))))) ]),
   after_draw w).
Proof.
  rewrite paymentHandler_run. cbv zeta.
  rewrite signature_run, the_message_encoded. reflexivity.
Qed.

Lemma run_ok_inv {A} (a b : A) (w w' : World) :
  (Ok a, w) = (Ok b, w') -> a = b /\ w = w'.
Proof. intros H. injection H as Ha Hw. auto. Qed.

Lemma some_uuid_inv (u v : uuid.UUID) :
  Some (PyUUID u) = Some (PyUUID v) -> u = v.
Proof. intros H. injection H as H. exact H. Qed.

Lemma context_lookup (u : uuid.UUID) (n : Z) (p sig : str) :
  let c := [ ("transaction_uuid"%string, PyUUID u);
             ("total_amount"%string, PyInt n);
             ("product_code"%string, PyStr p);
             ("signature"%string, PyStr sig) ] in
  views.lookup "transaction_uuid" c = Some (PyUUID u) /\
  views.lookup "signature" c = Some (PyStr sig).
Proof. split; reflexivity. Qed.

(** The script runs to its end, whatever the world. *)
Lemma script_returns (w : World) :
  let u := uuid4_of (draw w) in
  let d := RFC2104.HMAC_SHA256 the_secret (the_message u) in
  secret_py.main w =
  (Ok (secret_py.mkGlobals u 110 u the_product_code (the_message u) the_secret
         (hmac.new the_secret (the_message u) hashlib.sha256) d
         (signature_text the_secret (the_message u))),
   mkWorld (entropy w) (drawn w + 16)
     (((stdout w
        ++ join [32] (map py_str [PyStr (str_lit "UID: "); PyUUID u]) ++ [10])
        ++ join [32] (map py_str [PyStr (str_lit "Digest: "); PyBytes d]) ++ [10])
        ++ join [32] (map py_str
             [PyStr (str_lit "Signature: ");
              PyStr (signature_text the_secret (the_message u))]) ++ [10])).
Proof.
  cbv zeta. unfold secret_py.main. unfold bind at 1. rewrite uuid4_run.
  unfold bind, print, str_encode, bytes_decode, lift, ret, after_draw.
  cbn [entropy drawn stdout].
  fold the_product_code. fold the_secret.
  change (fstring _) with
    (generate.message (PyInt 110) (PyUUID (uuid4_of (draw w))) (PyStr the_product_code)).
  rewrite the_message_encoded.
  rewrite decode_b64encode, hmac_digest_rfc2104. reflexivity.
Qed.

(** ** The shape of a signature *)

Lemma b64_text_letter (b : byte) : b64_text b = true -> b64_letter (b2z b) = true.
Proof.
  unfold b64_text. intros H. apply existsb_exists in H.
  destruct H as [x [Hin Hx]]. apply Byte.byte_dec_bl in Hx. subst x.
  assert (Hall : forallb (fun x => b64_letter (b2z x)) base64.alphabet = true)
    by (vm_compute; reflexivity).
  exact (proj1 (forallb_forall _ _) Hall b Hin).
Qed.

(** Two bytes left over after the groups of three: three letters and one [=]. *)
Lemma b64encode_two_left (s : bytes) (k : nat) :
  List.length s = (3 * k + 2)%nat ->
  exists body,
    base64.b64encode s = body ++ [base64.pad_char] /\
    List.length body = (4 * k + 3)%nat /\
    Forall (fun b => b64_text b = true) body.
Proof.
  revert k. induction s as [|a|a b|a b c l IH] using list_ind3; intros k Hk;
    cbn [List.length] in Hk.
  - lia.
  - lia.
  - assert (k = 0%nat) by lia. subst k.
    exists [ base64.char (b2z a / 4);
             base64.char (b2z a mod 4 * 16 + b2z b / 16);
             base64.char (b2z b mod 16 * 4) ].
    split; [reflexivity|]. split; [reflexivity|].
    repeat constructor; apply char_text; byte_arith.
  - destruct k as [|k]; [lia|].
    destruct (IH k ltac:(lia)) as [body [He [Hl Hf]]].
    exists (base64.char (b2z a / 4) ::
            base64.char (b2z a mod 4 * 16 + b2z b / 16) ::
            base64.char (b2z b mod 16 * 4 + b2z c / 64) ::
            base64.char (b2z c mod 64) :: body).
    split; [cbn [base64.b64encode]; rewrite He; reflexivity|].
    split; [cbn [List.length]; lia|].
    repeat (constructor; [apply char_text; byte_arith|]). exact Hf.
Qed.

Lemma signature_text_format (key m : bytes) :
  exists body,
    signature_text key m = body ++ [61] /\
    List.length body = 43%nat /\
    Forall (fun c => b64_letter c = true) body.
Proof.
  destruct (b64encode_two_left (RFC2104.HMAC_SHA256 key m) 10) as [body [He [Hl Hf]]].
  { rewrite hmac_sha256_length. reflexivity. }
  exists (ascii_str body). unfold signature_text, ascii_str.
  rewrite He, map_app. split; [reflexivity|].
  split; [rewrite length_map; exact Hl|].
  apply Forall_map. eapply Forall_impl; [|exact Hf].
  intros b. apply b64_text_letter.
Qed.

Lemma signature_ok_inv (total_amount uid product_code : pyval) (secret : bytes)
      (w w' : World) (sig : str) :
  generate.signature total_amount uid product_code secret w = (Ok sig, w') ->
  exists m,
    utf8.encode (generate.message total_amount uid product_code) = Ok m /\
    sig = signature_text secret m /\ w' = w.
Proof.
  rewrite signature_run.
  destruct (utf8.encode _) as [m|e]; cbn [rbind]; intros H; [|discriminate].
  injection H as Hs Hw. exists m. auto.
Qed.

Lemma map_z2b_ascii_str (b : bytes) : map z2b (ascii_str b) = b.
Proof.
  unfold ascii_str. rewrite map_map.
  induction b as [|x b IH]; cbn [map]; [reflexivity|].
  rewrite z2b_b2z, IH. reflexivity.
Qed.

Lemma Ok_inj {A} (a b : A) : Ok a = Ok b -> a = b.
Proof. intros H. injection H as H. exact H. Qed.

Lemma functional_cons (c d : Z) :
  c = d ->
  (fun s : str => @Ok str (c :: s)) = (fun s : str => Ok (d :: s)).
Proof. intros ->. reflexivity. Qed.

(** ** Decoding undoes encoding, so [str.encode()] loses nothing *)

Ltac decide_tests :=
  repeat match goal with
         | |- context [?a <? ?b] =>
             destruct (Z.ltb_spec a b); try lia
         | |- context [?a <=? ?b] =>
             destruct (Z.leb_spec a b); try lia
         | |- context [?a =? ?b] =>
             destruct (Z.eqb_spec a b); try lia
         end.

Ltac small_bytes :=
  repeat match goal with
         | |- context [b2z (z2b ?z)] =>
             rewrite (b2z_z2b_small z) by (Z.div_mod_to_equations; lia)
         end.

Lemma decode_encode_code_point (c : Z) (bs rest : bytes) :
  utf8.encode_code_point c = Ok bs ->
  utf8.decode (bs ++ rest) = rbind (utf8.decode rest) (fun s => Ok (c :: s)).
Proof.
  unfold utf8.encode_code_point. intros E.
  destruct ((c <? 0) || (1114111 <? c) || is_surrogate c) eqn:Eg;
    [discriminate|].
  apply orb_false_iff in Eg. destruct Eg as [Eg Hs].
  apply orb_false_iff in Eg. destruct Eg as [H0 H1].
  apply Z.ltb_ge in H0. apply Z.ltb_ge in H1.
  assert (Hsur : c < 55296 \/ 57343 < c).
  { unfold is_surrogate in Hs. apply andb_false_iff in Hs.
    destruct Hs as [Hs|Hs]; apply Z.leb_gt in Hs; lia. }
  clear Hs.
  destruct (c <? 128) eqn:E1.
  { apply Z.ltb_lt in E1. apply Ok_inj in E. subst bs.
    cbn [app utf8.decode]. small_bytes.
    decide_tests. reflexivity. }
  apply Z.ltb_ge in E1.
  destruct (c <? 2048) eqn:E2.
  { apply Z.ltb_lt in E2. apply Ok_inj in E. subst bs.
    cbn [app utf8.decode]. unfold utf8.continuation, utf8.tail.
    small_bytes.
    Z.div_mod_to_equations. decide_tests.
    cbn [andb]. f_equal. apply functional_cons. lia. }
  apply Z.ltb_ge in E2.
  destruct (c <? 65536) eqn:E3.
  { apply Z.ltb_lt in E3. apply Ok_inj in E. subst bs.
    cbn [app utf8.decode]. unfold utf8.continuation, utf8.tail, is_surrogate.
    small_bytes.
    Z.div_mod_to_equations. decide_tests.
    all: cbn [andb negb]; f_equal; apply functional_cons; lia. }
  apply Z.ltb_ge in E3. apply Ok_inj in E. subst bs.
  cbn [app utf8.decode]. unfold utf8.continuation, utf8.tail.
  small_bytes.
  Z.div_mod_to_equations. decide_tests.
  cbn [andb]. f_equal. apply functional_cons. lia.
Qed.

Lemma decode_encode (s : str) (bs : bytes) :
  utf8.encode s = Ok bs -> utf8.decode bs = Ok s.
Proof.
  revert bs. induction s as [|c s IH]; intros bs; cbn [utf8.encode].
  - intros E. apply Ok_inj in E. subst bs. reflexivity.
  - destruct (utf8.encode_code_point c) as [b|e] eqn:Ec; cbn [rbind];
      [|discriminate].
    destruct (utf8.encode s) as [rest|e]; cbn [rbind]; [|discriminate].
    intros E. apply Ok_inj in E. subst bs.
    rewrite (decode_encode_code_point c b rest Ec), (IH rest eq_refl).
    reflexivity.
Qed.

Lemma encode_inj (s t : str) (bs : bytes) :
  utf8.encode s = Ok bs -> utf8.encode t = Ok bs -> s = t.
Proof.
  intros Hs Ht. apply decode_encode in Hs. apply decode_encode in Ht.
  rewrite Hs in Ht. apply Ok_inj in Ht. exact Ht.
Qed.

(** ** Distinct values have distinct text *)

Lemma str_lit_inj (s t : string) : str_lit s = str_lit t -> s = t.
Proof.
  unfold str_lit. intros H. apply map_b2z_inj in H.
  rewrite <- (string_of_list_byte_of_string s),
          <- (string_of_list_byte_of_string t), H.
  reflexivity.
Qed.

Lemma int_str_inj (n m : Z) : int_str n = int_str m -> n = m.
Proof.
  unfold int_str. intros H. apply str_lit_inj in H.
  apply (f_equal DecimalString.NilEmpty.int_of_string) in H.
  rewrite !DecimalString.NilEmpty.isi in H.
  apply (f_equal (fun o => match o with
                           | Some d => Z.of_int d
                           | None => 0
                           end)) in H.
  rewrite !DecimalZ.of_to in H. exact H.
Qed.

Lemma hex_digit_inj (a b : Z) :
  0 <= a < 16 -> 0 <= b < 16 -> hex_digit a = hex_digit b -> a = b.
Proof.
  unfold hex_digit. intros Ha Hb.
  destruct (Z.ltb_spec a 10); destruct (Z.ltb_spec b 10); lia.
Qed.

Lemma hex_digits_length (w : nat) (n : Z) : List.length (hex_digits w n) = w.
Proof.
  revert n. induction w as [|w IH]; intros n; cbn [hex_digits].
  - reflexivity.
  - rewrite length_app, IH. cbn [List.length]. lia.
Qed.

Lemma hex_digits_inj (w : nat) (n m : Z) :
  hex_digits w n = hex_digits w m ->
  n mod 16 ^ Z.of_nat w = m mod 16 ^ Z.of_nat w.
Proof.
  revert n m. induction w as [|w IH]; intros n m H.
  - change (16 ^ Z.of_nat 0) with 1. rewrite !Z.mod_1_r. reflexivity.
  - cbn [hex_digits] in H. apply app_inj_tail in H. destruct H as [Hh Hd].
    apply IH in Hh.
    apply hex_digit_inj in Hd; try (apply Z.mod_pos_bound; lia).
    rewrite Nat2Z.inj_succ, Z.pow_succ_r by lia.
    rewrite !Z.rem_mul_r by lia. rewrite Hh, Hd. reflexivity.
Qed.

(** The five groups of [UUID.__str__] can be read back. *)
Lemma uuid_layout_inj (h k : str) :
  List.length h = 32%nat -> List.length k = 32%nat ->
  uuid.slice 0 8 h ++ [45] ++ uuid.slice 8 12 h ++ [45] ++ uuid.slice 12 16 h
    ++ [45] ++ uuid.slice 16 20 h ++ [45] ++ skipn 20 h =
  uuid.slice 0 8 k ++ [45] ++ uuid.slice 8 12 k ++ [45] ++ uuid.slice 12 16 k
    ++ [45] ++ uuid.slice 16 20 k ++ [45] ++ skipn 20 k ->
  h = k.
Proof.
  intros Hh Hk.
  do 32 (destruct h as [|? h]; [discriminate Hh|]).
  destruct h; [|discriminate Hh].
  do 32 (destruct k as [|? k]; [discriminate Hk|]).
  destruct k; [|discriminate Hk].
  cbv [uuid.slice firstn skipn app Nat.sub]. intros H.
  injection H as -> -> -> -> -> -> -> -> -> -> -> -> -> -> -> -> -> -> -> ->
                   -> -> -> -> -> -> -> -> -> -> -> ->.
  reflexivity.
Qed.

Lemma uuid_to_str_inj (u v : uuid.UUID) :
  0 <= uuid.int u < 2 ^ 128 -> 0 <= uuid.int v < 2 ^ 128 ->
  uuid.to_str u = uuid.to_str v -> u = v.
Proof.
  intros Hu Hv H. unfold uuid.to_str in H.
  apply uuid_layout_inj in H; try apply hex_digits_length.
  apply hex_digits_inj in H.
  change (16 ^ Z.of_nat 32) with (2 ^ 128) in H.
  rewrite !Z.mod_small in H by assumption.
  destruct u as [x], v as [y]. cbn [uuid.int] in H. subst y. reflexivity.
Qed.

(** ** [int.from_bytes] *)

Lemma from_bytes_acc (l : bytes) (acc : Z) :
  fold_left (fun a x => a * 256 + b2z x) l acc =
  acc * 256 ^ Z.of_nat (List.length l) + uuid.from_bytes l.
Proof.
  unfold uuid.from_bytes. revert acc.
  induction l as [|x l IH]; intros acc.
  - cbn [fold_left List.length]. change (256 ^ Z.of_nat 0) with 1. lia.
  - cbn [fold_left]. rewrite IH, (IH (0 * 256 + b2z x)).
    cbn [List.length]. rewrite Nat2Z.inj_succ, Z.pow_succ_r by lia. lia.
Qed.

Lemma from_bytes_cons (x : byte) (l : bytes) :
  uuid.from_bytes (x :: l) =
  b2z x * 256 ^ Z.of_nat (List.length l) + uuid.from_bytes l.
Proof.
  unfold uuid.from_bytes at 1. cbn [fold_left]. rewrite from_bytes_acc. lia.
Qed.

Lemma from_bytes_range (l : bytes) :
  0 <= uuid.from_bytes l < 256 ^ Z.of_nat (List.length l).
Proof.
  induction l as [|x l IH].
  - cbv. split; [discriminate | reflexivity].
  - rewrite from_bytes_cons. cbn [List.length].
    rewrite Nat2Z.inj_succ, Z.pow_succ_r by lia.
    pose proof (b2z_range x). nia.
Qed.

Lemma from_bytes_inj (l k : bytes) :
  List.length l = List.length k ->
  uuid.from_bytes l = uuid.from_bytes k -> l = k.
Proof.
  revert k. induction l as [|x l IH]; intros [|y k] Hlen H;
    try discriminate Hlen; [reflexivity|].
  cbn [List.length] in Hlen. injection Hlen as Hlen.
  rewrite !from_bytes_cons, <- Hlen in H.
  pose proof (from_bytes_range l) as Rl. pose proof (from_bytes_range k) as Rk.
  rewrite <- Hlen in Rk.
  pose proof (b2z_range x). pose proof (b2z_range y).
  assert (Hxy : b2z x = b2z y) by nia.
  rewrite Hxy in H. f_equal; [apply b2z_inj, Hxy | apply IH; [exact Hlen | lia]].
Qed.

(** ** More inputs than outputs *)

Lemma bounded_search (f : Z -> Z) (v n : Z) :
  0 <= n ->
  (exists x, 0 <= x < n /\ f x = v) \/ (forall x, 0 <= x < n -> f x <> v).
Proof.
  intros Hn. pattern n. apply natlike_ind; [| |exact Hn].
  - right. intros x Hx. lia.
  - intros m Hm [[x [Hx Hf]]|Hno].
    + left. exists x. split; [lia | exact Hf].
    + destruct (Z.eq_dec (f m) v) as [E|E].
      * left. exists m. split; [lia | exact E].
      * right. intros x Hx.
        destruct (Z.eq_dec x m) as [->|Hne]; [exact E | apply Hno; lia].
Qed.

(** A function from the [n + 1] integers [0 .. n] into the [n] integers
    [0 .. n - 1] takes some value twice. *)
Lemma pigeonhole (n : Z) :
  0 <= n ->
  forall f : Z -> Z,
    (forall x, 0 <= x <= n -> 0 <= f x < n) ->
    exists x y, 0 <= x < y /\ y <= n /\ f x = f y.
Proof.
  intros Hn. pattern n. apply natlike_ind; [| |exact Hn].
  - intros f Hf. specialize (Hf 0). lia.
  - intros m Hm IH f Hf.
    destruct (bounded_search f (f (Z.succ m)) (Z.succ m)) as [[x [Hx E]]|Hno];
      [lia| |].
    + exists x, (Z.succ m). repeat split; lia.
    + set (g := fun x => if f x =? m then f (Z.succ m) else f x).
      destruct (IH g) as [x [y [Hxy [Hy E]]]].
      { intros x Hx. unfold g.
        pose proof (Hf x ltac:(lia)). pose proof (Hf (Z.succ m) ltac:(lia)).
        pose proof (Hno x ltac:(lia)).
        destruct (Z.eqb_spec (f x) m); lia. }
      exists x, y. repeat split; try lia.
      unfold g in E.
      pose proof (Hno x ltac:(lia)). pose proof (Hno y ltac:(lia)).
      destruct (Z.eqb_spec (f x) m); destruct (Z.eqb_spec (f y) m); lia.
Qed.

(** ** One field changed: another message *)

Lemma message_sensitive (a1 : Z) (u1 p1 : str) (a2 : Z) (u2 p2 : str) :
  one_field_differs a1 u1 p1 a2 u2 p2 ->
  generate.message (PyInt a1) (PyStr u1) (PyStr p1) <>
  generate.message (PyInt a2) (PyStr u2) (PyStr p2).
Proof.
  rewrite !message_parts. cbn [py_str].
  intros [[Ha [<- <-]]|[[<- [Hu <-]]|[<- [<- Hp]]]] H.
  - apply app_inv_head in H. apply app_inv_tail in H.
    apply Ha, int_str_inj, H.
  - do 3 apply app_inv_head in H. apply app_inv_tail in H. exact (Hu H).
  - do 5 apply app_inv_head in H. exact (Hp H).
Qed.

Lemma message_uuid_sensitive (n : Z) (u v : uuid.UUID) (p : str) :
  0 <= uuid.int u < 2 ^ 128 -> 0 <= uuid.int v < 2 ^ 128 -> u <> v ->
  generate.message (PyInt n) (PyUUID u) (PyStr p) <>
  generate.message (PyInt n) (PyUUID v) (PyStr p).
Proof.
  intros Hu Hv Hne H. rewrite !message_parts in H. cbn [py_str] in H.
  do 3 apply app_inv_head in H. apply app_inv_tail in H.
  apply Hne, uuid_to_str_inj; assumption.
Qed.

Lemma signature_text_eq_iff (key m1 m2 : bytes) :
  signature_text key m1 = signature_text key m2 <->
  RFC2104.HMAC_SHA256 key m1 = RFC2104.HMAC_SHA256 key m2.
Proof.
  unfold signature_text, ascii_str. split.
  - intros H. apply map_b2z_inj in H. apply b64encode_inj, H.
  - intros ->. reflexivity.
Qed.

Lemma message_ascii_fields (total_amount uid product_code : pyval) :
  Forall (fun c => is_ascii c = true) (py_str total_amount) ->
  Forall (fun c => is_ascii c = true) (py_str uid) ->
  Forall (fun c => is_ascii c = true) (py_str product_code) ->
  Forall (fun c => is_ascii c = true)
         (generate.message total_amount uid product_code).
Proof.
  intros Ha Hu Hp. rewrite message_parts.
  apply Forall_app; split; [apply str_lit_ascii_check; vm_compute; reflexivity|].
  apply Forall_app; split; [exact Ha|].
  apply Forall_app; split; [apply str_lit_ascii_check; vm_compute; reflexivity|].
  apply Forall_app; split; [exact Hu|].
  apply Forall_app; split;
    [apply str_lit_ascii_check; vm_compute; reflexivity | exact Hp].
Qed.

Lemma message_scalar (n : Z) (u p : str) :
  Forall (fun c => is_scalar c = true) u ->
  Forall (fun c => is_scalar c = true) p ->
  Forall (fun c => is_scalar c = true)
         (generate.message (PyInt n) (PyStr u) (PyStr p)).
Proof.
  intros Hu Hp. rewrite message_parts. cbn [py_str].
  assert (Hlit : forall s, forallb is_ascii (str_lit s) = true ->
                           Forall (fun c => is_scalar c = true) (str_lit s)).
  { intros s Hs. eapply Forall_impl; [|apply str_lit_ascii_check, Hs].
    apply is_ascii_scalar. }
  apply Forall_app; split; [apply Hlit; vm_compute; reflexivity|].
  apply Forall_app; split;
    [eapply Forall_impl; [apply is_ascii_scalar | apply int_str_ascii]|].
  apply Forall_app; split; [apply Hlit; vm_compute; reflexivity|].
  apply Forall_app; split; [exact Hu|].
  apply Forall_app; split; [apply Hlit; vm_compute; reflexivity | exact Hp].
Qed.

(** At the known vector every total_amount has a signature. *)
Lemma vector_signature_of (a : Z) (w : World) :
  generate.signature (PyInt a) (PyStr vector_uuid) (PyStr the_product_code)
                     the_secret w =
  (Ok (signature_text the_secret
         (map z2b (generate.message (PyInt a) (PyStr vector_uuid)
                                    (PyStr the_product_code)))), w).
Proof.
  rewrite signature_run, encode_ascii; [reflexivity|].
  apply message_ascii_fields; cbn [py_str].
  - apply int_str_ascii.
  - apply str_lit_ascii_check. vm_compute. reflexivity.
  - apply str_lit_ascii_check. vm_compute. reflexivity.
Qed.

(** ** The bits of a version-4 UUID *)

Lemma testbit_small (c k i : Z) :
  0 <= c < 2 ^ k -> k <= i -> Z.testbit c i = false.
Proof.
  intros Hc Hi. destruct (Z.eq_dec c 0) as [->|Hne]; [apply Z.bits_0|].
  apply Z.bits_above_log2; [lia|].
  assert (Z.log2 c < k); [|lia].
  apply Z.log2_lt_pow2; lia.
Qed.

Lemma testbit_const (c : Z) (k : nat) (g : Z -> bool) :
  0 <= c < 2 ^ Z.of_nat k ->
  forallb (fun j => Bool.eqb (Z.testbit c (Z.of_nat j)) (g (Z.of_nat j)))
          (seq 0 k) = true ->
  (forall i, Z.of_nat k <= i -> g i = false) ->
  forall i, 0 <= i -> Z.testbit c i = g i.
Proof.
  intros Hc Hall Hg i Hi.
  destruct (Z.lt_ge_cases i (Z.of_nat k)) as [Hlt|Hge].
  - pose proof (proj1 (forallb_forall _ _) Hall (Z.to_nat i)) as H.
    cbv beta in H. rewrite Z2Nat.id in H by lia.
    apply Bool.eqb_prop. apply H. apply in_seq. lia.
  - rewrite (Hg i Hge). apply (testbit_small c (Z.of_nat k)); assumption.
Qed.

Ltac const_bits g :=
  intros; apply (testbit_const _ 128 g);
  [ split; [discriminate | reflexivity]
  | vm_compute; reflexivity
  | intros; decide_tests; reflexivity
  | assumption ].

Lemma variant_mask_bits (i : Z) :
  0 <= i -> Z.testbit (Z.shiftl 0xc000 48) i = (i =? 62) || (i =? 63).
Proof. const_bits (fun i => (i =? 62) || (i =? 63)). Qed.

Lemma variant_value_bits (i : Z) :
  0 <= i -> Z.testbit (Z.shiftl 0x8000 48) i = (i =? 63).
Proof. const_bits (fun i => i =? 63). Qed.

Lemma version_mask_bits (i : Z) :
  0 <= i -> Z.testbit (Z.shiftl 0xf000 64) i = (76 <=? i) && (i <=? 79).
Proof. const_bits (fun i => (76 <=? i) && (i <=? 79)). Qed.

Lemma version_value_bits (i : Z) :
  0 <= i -> Z.testbit (Z.shiftl 4 76) i = (i =? 78).
Proof. const_bits (fun i => i =? 78). Qed.

Lemma v4_int_bit (x i : Z) :
  0 <= i ->
  Z.testbit (v4_int x) i = if v4_fixed i then v4_value i else Z.testbit x i.
Proof.
  intros Hi. unfold v4_int, v4_fixed, v4_value.
  rewrite !Z.lor_spec, !Z.land_spec, !Z.lor_spec, !Z.land_spec,
    !Z.lnot_spec by exact Hi.
  rewrite variant_mask_bits, variant_value_bits, version_mask_bits,
    version_value_bits by exact Hi.
  destruct (Z.testbit x i); decide_tests; reflexivity.
Qed.

Lemma below_pow2 (z k : Z) :
  0 <= z -> 0 <= k -> (forall i, k <= i -> Z.testbit z i = false) -> z < 2 ^ k.
Proof.
  intros Hz Hk Hbits.
  destruct (Z.eq_dec z 0) as [->|Hne]; [apply Z.pow_pos_nonneg; lia|].
  apply Z.log2_lt_pow2; [lia|].
  destruct (Z.lt_ge_cases (Z.log2 z) k) as [Hlt|Hge]; [exact Hlt|].
  specialize (Hbits (Z.log2 z) Hge).
  rewrite (Z.bit_log2 z) in Hbits by lia. discriminate Hbits.
Qed.

Lemma v4_int_range (x : Z) : 0 <= x < 2 ^ 128 -> 0 <= v4_int x < 2 ^ 128.
Proof.
  intros Hx. split.
  - unfold v4_int. apply Z.lor_nonneg. split; [|discriminate].
    apply Z.land_nonneg. left. apply Z.lor_nonneg. split; [|discriminate].
    apply Z.land_nonneg. left. lia.
  - apply below_pow2; [| lia |].
    + unfold v4_int. apply Z.lor_nonneg. split; [|discriminate].
      apply Z.land_nonneg. left. apply Z.lor_nonneg. split; [|discriminate].
      apply Z.land_nonneg. left. lia.
    + intros i Hi. rewrite v4_int_bit by lia.
      replace (v4_fixed i) with false
        by (unfold v4_fixed; decide_tests; reflexivity).
      apply (testbit_small x 128); assumption.
Qed.

Lemma uuid4_of_range (b : bytes) :
  List.length b = 16%nat -> 0 <= uuid.int (uuid4_of b) < 2 ^ 128.
Proof.
  intros Hb. unfold uuid4_of. cbn [uuid.int]. apply v4_int_range.
  pose proof (from_bytes_range b) as R. rewrite Hb in R.
  change (256 ^ Z.of_nat 16) with (2 ^ 128) in R. exact R.
Qed.

(** [uuid4()] makes a UUID of version 4 and of the RFC 4122 variant. *)
Lemma uuid4_of_version (b : bytes) :
  uuid_version (uuid4_of b) = 4 /\ uuid_variant_bits (uuid4_of b) = 2.
Proof.
  unfold uuid_version, uuid_variant_bits, uuid4_of. cbn [uuid.int].
  split; apply Z.bits_inj'; intros j Hj;
    rewrite Z.land_spec, Z.shiftr_spec, v4_int_bit by lia.
  - rewrite (testbit_const 15 4 (fun j => j <? 4)), (testbit_const 4 4 (fun j => j =? 2));
      try exact Hj; try (split; [discriminate | reflexivity]);
      try (vm_compute; reflexivity);
      try (intros; decide_tests; reflexivity).
    unfold v4_fixed, v4_value. decide_tests; try reflexivity.
    all: cbn [orb andb]; try reflexivity; apply andb_false_r.
  - rewrite (testbit_const 3 4 (fun j => j <? 2)), (testbit_const 2 4 (fun j => j =? 1));
      try exact Hj; try (split; [discriminate | reflexivity]);
      try (vm_compute; reflexivity);
      try (intros; decide_tests; reflexivity).
    unfold v4_fixed, v4_value. decide_tests; try reflexivity.
    all: cbn [orb andb]; try reflexivity; apply andb_false_r.
Qed.

(** Two draws give the same UUID exactly when they agree on every bit
    that is not overwritten. *)
Lemma uuid4_of_eq_iff (b1 b2 : bytes) :
  uuid4_of b1 = uuid4_of b2 <->
  forall i, 0 <= i -> v4_fixed i = false ->
            Z.testbit (uuid.from_bytes b1) i = Z.testbit (uuid.from_bytes b2) i.
Proof.
  unfold uuid4_of. split.
  - intros H i Hi Hf. apply (f_equal uuid.int) in H. cbn [uuid.int] in H.
    apply (f_equal (fun z => Z.testbit z i)) in H.
    rewrite !v4_int_bit, Hf in H by exact Hi. exact H.
  - intros H. f_equal. apply Z.bits_inj'. intros i Hi.
    rewrite !v4_int_bit by exact Hi.
    destruct (v4_fixed i) eqn:Hf; [reflexivity | apply H; assumption].
Qed.

(** ** The digit limit *)

Lemma format_value_within (limit : nat) (v : pyval) :
  digit_limit.format_value limit v =
  if within_limit limit v then Ok (py_str v) else Raise ValueError.
Proof.
  destruct v as [n|t|b|u]; try reflexivity.
  cbn [digit_limit.format_value within_limit py_str].
  unfold digit_limit.format_int.
  destruct (limit =? 0)%nat; cbn [negb andb orb]; [reflexivity|].
  rewrite Nat.ltb_antisym. destruct (_ <=? _)%nat; reflexivity.
Qed.

Lemma message_within (limit : nat) (total_amount uid product_code : pyval) :
  digit_limit.message limit total_amount uid product_code =
  if within_limit limit total_amount && within_limit limit uid
     && within_limit limit product_code
  then Ok (generate.message total_amount uid product_code)
  else Raise ValueError.
Proof.
  unfold digit_limit.message. cbn [digit_limit.fstring].
  rewrite !format_value_within.
  destruct (within_limit limit total_amount); cbn [rbind andb];
    [|reflexivity].
  destruct (within_limit limit uid); cbn [rbind andb]; [|reflexivity].
  destruct (within_limit limit product_code); cbn [rbind andb];
    reflexivity.
Qed.

Lemma signature_within (limit : nat) (total_amount uid product_code : pyval)
      (secret : bytes) (w : World) :
  digit_limit.signature limit total_amount uid product_code secret w =
  if within_limit limit total_amount && within_limit limit uid
     && within_limit limit product_code
  then generate.signature total_amount uid product_code secret w
  else (Raise ValueError, w).
Proof.
  unfold digit_limit.signature, generate.signature.
  unfold bind at 1. unfold lift at 1. rewrite message_within.
  destruct (_ && _); reflexivity.
Qed.

Lemma small_int_within (limit : nat) (n : Z) :
  admissible_limit limit ->
  (digit_limit.int_digits n <= 640)%nat ->
  within_limit limit (PyInt n) = true.
Proof.
  intros [-> | Hl] Hn; cbn [within_limit]; [reflexivity|].
  apply orb_true_iff. right. apply Nat.leb_le. lia.
Qed.

(* ================================================================== *)
(** * The claims *)
(* ================================================================== *)

(** C1.  For every [total_amount], [transaction_uuid], [product_code] and
    [secret]: when [m] is the UTF-8 encoding of the canonical message, the
    computation returns, without touching the world, the text of the
    standard base64 encoding (with padding) of the HMAC-SHA256 digest of
    [m] keyed by [secret], HMAC being the construction of RFC 2104 over
    SHA-256; decoded as base64 the signature is that digest again.  In
    [paymentHandler] the message always has an encoding, and the entry
    [signature] of the context is that text for it. *)
Theorem C1_signature_is_base64_of_hmac_sha256 :
  (forall (total_amount uid product_code : pyval) (secret m : bytes)
          (w : World),
     utf8.encode (generate.message total_amount uid product_code) = Ok m ->
     generate.signature total_amount uid product_code secret w =
       (Ok (ascii_str (base64.b64encode (RFC2104.HMAC_SHA256 secret m))), w) /\
     base64.b64decode
       (map z2b (ascii_str (base64.b64encode (RFC2104.HMAC_SHA256 secret m)))) =
       Some (RFC2104.HMAC_SHA256 secret m)) /\
  (forall (Request : Type) (request : Request) (w : World),
   exists (u : uuid.UUID) (m : bytes) (r : views.HttpResponse) (w' : World),
     views.paymentHandler request w = (Ok r, w') /\
     views.lookup "transaction_uuid" (views.context r) = Some (PyUUID u) /\
     utf8.encode (generate.message (PyInt 110) (PyUUID u)
                                   (PyStr (str_lit "EPAYTEST"))) = Ok m /\
     views.lookup "signature" (views.context r) =
       Some (PyStr (ascii_str (base64.b64encode
               (RFC2104.HMAC_SHA256 (bytes_lit "8gBm/:&EnhH.1/q") m))))).
Proof.
  split.
  - intros ta uid pc secret m w Hm. split.
    + rewrite signature_run, Hm. reflexivity.
    + rewrite map_z2b_ascii_str. apply b64decode_b64encode.
  - intros Request request w.
    exists (uuid4_of (draw w)), (the_message (uuid4_of (draw w))),
           (response_of (uuid4_of (draw w))), (after_draw w).
    split; [apply paymentHandler_returns|].
    split; [reflexivity|].
    split; [apply the_message_encoded | reflexivity].
Qed.

(** The known vector satisfies the hypothesis of C1. *)
Lemma C1_witness :
  utf8.encode (generate.message (PyInt 110) (PyStr vector_uuid)
                                (PyStr the_product_code))
    = Ok vector_message_bytes /\
  (generate.signature (PyInt 110) (PyStr vector_uuid) (PyStr the_product_code)
                      the_secret (constant_world x00) =
     (Ok (ascii_str (base64.b64encode
                       (RFC2104.HMAC_SHA256 the_secret vector_message_bytes))),
      constant_world x00) /\
   base64.b64decode
     (map z2b (ascii_str (base64.b64encode
                 (RFC2104.HMAC_SHA256 the_secret vector_message_bytes)))) =
     Some (RFC2104.HMAC_SHA256 the_secret vector_message_bytes)).
Proof.
  split.
  - vm_compute. reflexivity.
  - apply (proj1 C1_signature_is_base64_of_hmac_sha256
             (PyInt 110) (PyStr vector_uuid) (PyStr the_product_code)
             the_secret vector_message_bytes (constant_world x00)).
    vm_compute. reflexivity.
Defined.

(** C2.  The canonical message is the text
    [total_amount=<total_amount>,transaction_uuid=<transaction_uuid>,product_code=<product_code>]
    and nothing else, each field standing for its [str]; for an integer
    and two strings the fields are the decimal digits and the strings
    themselves; at total_amount 110, the UUID
    00000000-0000-4000-8000-000000000000 (as a string or as a [UUID]
    object) and product code EPAYTEST it is the message of the known
    vector. *)
Theorem C2_canonical_message :
  (forall total_amount uid product_code : pyval,
     generate.message total_amount uid product_code =
     str_lit "total_amount=" ++ py_str total_amount ++
     str_lit ",transaction_uuid=" ++ py_str uid ++
     str_lit ",product_code=" ++ py_str product_code) /\
  (forall (n : Z) (u p : str),
     generate.message (PyInt n) (PyStr u) (PyStr p) =
     str_lit "total_amount=" ++ int_str n ++
     str_lit ",transaction_uuid=" ++ u ++ str_lit ",product_code=" ++ p) /\
  generate.message (PyInt 110) (PyStr vector_uuid) (PyStr (str_lit "EPAYTEST"))
    = vector_message /\
  generate.message (PyInt 110) (PyUUID vector_uuid_object)
                   (PyStr (str_lit "EPAYTEST"))
    = vector_message.
Proof.
  split; [exact message_parts|].
  split; [intros n u p; apply message_parts|].
  split; vm_compute; reflexivity.
Qed.

(** C3.  The signature is determined by the tuple ([total_amount],
    [transaction_uuid], [product_code], [secret]): two runs on the same
    tuple, in whatever two states of the world, yield the same result; and
    two runs of [paymentHandler] (or of the script) that draw the same
    UUID yield the same response (the same bound names). *)
Theorem C3_signature_deterministic :
  (forall (total_amount uid product_code : pyval) (secret : bytes)
          (w1 w2 : World),
     fst (generate.signature total_amount uid product_code secret w1) =
     fst (generate.signature total_amount uid product_code secret w2)) /\
  (forall (Request1 Request2 : Type) (request1 : Request1)
          (request2 : Request2) (w1 w2 : World),
     uuid4_of (draw w1) = uuid4_of (draw w2) ->
     fst (views.paymentHandler request1 w1) =
     fst (views.paymentHandler request2 w2)) /\
  (forall w1 w2 : World,
     uuid4_of (draw w1) = uuid4_of (draw w2) ->
     fst (secret_py.main w1) = fst (secret_py.main w2)).
Proof.
  split; [|split].
  - intros. rewrite !signature_run. reflexivity.
  - intros R1 R2 r1 r2 w1 w2 Hu.
    rewrite !paymentHandler_returns. cbn [fst]. rewrite Hu. reflexivity.
  - intros w1 w2 Hu.
    pose proof (script_returns w1) as H1. pose proof (script_returns w2) as H2.
    cbv zeta in H1, H2. rewrite H1, H2. cbn [fst]. rewrite Hu. reflexivity.
Qed.

(** C3 at two worlds that differ in everything but the 16 bytes drawn. *)
Lemma C3_witness :
  uuid4_of (draw (constant_world x00))
    = uuid4_of (draw (mkWorld (fun _ => x00) 7 [10])) /\
  fst (views.paymentHandler tt (constant_world x00)) =
  fst (views.paymentHandler 0%nat (mkWorld (fun _ => x00) 7 [10])).
Proof.
  assert (Hu : uuid4_of (draw (constant_world x00))
               = uuid4_of (draw (mkWorld (fun _ => x00) 7 [10])))
    by (vm_compute; reflexivity).
  split; [exact Hu|].
  exact (proj1 (proj2 C3_signature_deterministic) unit nat tt 0%nat
           (constant_world x00) (mkWorld (fun _ => x00) 7 [10]) Hu).
Defined.

(** C4.  Whenever a signature is produced it has exactly 44 characters:
    43 letters of the base64 alphabet followed by exactly one [=] (which
    is not a letter of the alphabet); every run of [paymentHandler] and of
    the script produces one. *)
Theorem C4_signature_format :
  (forall (total_amount uid product_code : pyval) (secret : bytes)
          (w w' : World) (sig : str),
     generate.signature total_amount uid product_code secret w = (Ok sig, w') ->
     signature_shape sig) /\
  b64_letter 61 = false /\
  (forall (Request : Type) (request : Request) (w : World),
   exists (r : views.HttpResponse) (w' : World) (sig : str),
     views.paymentHandler request w = (Ok r, w') /\
     views.lookup "signature" (views.context r) = Some (PyStr sig) /\
     signature_shape sig) /\
  (forall w : World,
   exists (g : secret_py.globals) (w' : World),
     secret_py.main w = (Ok g, w') /\
     signature_shape (secret_py.signature g)).
Proof.
  assert (Hshape : forall key m, signature_shape (signature_text key m)).
  { intros key m.
    destruct (signature_text_format key m) as [body [He [Hl Hf]]].
    split; [rewrite He, length_app, Hl; reflexivity|].
    exists body. auto. }
  split; [|split; [reflexivity|split]].
  - intros ta uid pc secret w w' sig H.
    apply signature_ok_inv in H. destruct H as [m [_ [-> _]]]. apply Hshape.
  - intros Request request w.
    exists (response_of (uuid4_of (draw w))), (after_draw w),
           (signature_text the_secret (the_message (uuid4_of (draw w)))).
    split; [apply paymentHandler_returns|].
    split; [reflexivity | apply Hshape].
  - intros w. pose proof (script_returns w) as H. cbv zeta in H.
    eexists _, _. split; [exact H|]. cbn [secret_py.signature]. apply Hshape.
Qed.

(** The known vector has a signature, of the stated shape. *)
Lemma C4_witness :
  generate.signature (PyInt 110) (PyStr vector_uuid) (PyStr the_product_code)
                     the_secret (constant_world x00)
    = (Ok vector_signature, constant_world x00) /\
  signature_shape vector_signature.
Proof.
  split.
  - vm_compute. reflexivity.
  - apply (proj1 C4_signature_format (PyInt 110) (PyStr vector_uuid)
             (PyStr the_product_code) the_secret
             (constant_world x00) (constant_world x00) vector_signature).
    vm_compute. reflexivity.
Defined.

(** C5, as stated, fails: signatures have 256 bits and total amounts are
    without bound, so at the known vector (same UUID, product code and
    secret) two different total amounts among 0 .. 2^256 have the same
    signature. *)
Lemma C5_counterexample :
  exists (a1 a2 : Z) (sig : str),
    0 <= a1 < a2 /\ a2 <= 2 ^ 256 /\
    generate.signature (PyInt a1) (PyStr vector_uuid) (PyStr the_product_code)
                       the_secret (constant_world x00)
      = (Ok sig, constant_world x00) /\
    generate.signature (PyInt a2) (PyStr vector_uuid) (PyStr the_product_code)
                       the_secret (constant_world x00)
      = (Ok sig, constant_world x00).
Proof.
  set (msg := fun a : Z =>
         map z2b (generate.message (PyInt a) (PyStr vector_uuid)
                                   (PyStr the_product_code))).
  destruct (pigeonhole (2 ^ 256) ltac:(lia)
              (fun a => uuid.from_bytes (RFC2104.HMAC_SHA256 the_secret (msg a))))
    as [a1 [a2 [H12 [H2 E]]]].
  { intros a _.
    pose proof (from_bytes_range (RFC2104.HMAC_SHA256 the_secret (msg a))) as R.
    rewrite hmac_sha256_length in R.
    change (256 ^ Z.of_nat 32) with (2 ^ 256) in R. exact R. }
  apply from_bytes_inj in E; [|rewrite !hmac_sha256_length; reflexivity].
  exists a1, a2, (signature_text the_secret (msg a1)).
  split; [exact H12|]. split; [exact H2|].
  rewrite !vector_signature_of. fold (msg a1). fold (msg a2).
  unfold signature_text. rewrite E. split; reflexivity.
Qed.

(** C5, amended.  When two tuples (integer, string, string) agree on
    two fields and differ in the third, under one secret, their canonical
    messages have different UTF-8 bytes, and the two signatures are equal
    exactly when HMAC-SHA256 under the secret takes the same value on
    those two byte strings; at the known vector the signatures for 110 and
    for 111 differ. *)
Theorem C5_sensitivity_up_to_hmac_collision :
  (forall (a1 : Z) (u1 p1 : str) (a2 : Z) (u2 p2 : str) (secret : bytes)
          (w1 w2 w1' w2' : World) (sig1 sig2 : str),
     one_field_differs a1 u1 p1 a2 u2 p2 ->
     generate.signature (PyInt a1) (PyStr u1) (PyStr p1) secret w1
       = (Ok sig1, w1') ->
     generate.signature (PyInt a2) (PyStr u2) (PyStr p2) secret w2
       = (Ok sig2, w2') ->
     exists m1 m2 : bytes,
       utf8.encode (generate.message (PyInt a1) (PyStr u1) (PyStr p1)) = Ok m1 /\
       utf8.encode (generate.message (PyInt a2) (PyStr u2) (PyStr p2)) = Ok m2 /\
       m1 <> m2 /\
       (sig1 = sig2 <->
        RFC2104.HMAC_SHA256 secret m1 = RFC2104.HMAC_SHA256 secret m2)) /\
  fst (generate.signature (PyInt 110) (PyStr vector_uuid)
         (PyStr the_product_code) the_secret (constant_world x00))
    = Ok vector_signature /\
  fst (generate.signature (PyInt 111) (PyStr vector_uuid)
         (PyStr the_product_code) the_secret (constant_world x00))
    = Ok vector_signature_111 /\
  vector_signature <> vector_signature_111.
Proof.
  split; [|split; [|split]].
  - intros a1 u1 p1 a2 u2 p2 secret w1 w2 w1' w2' sig1 sig2 Hd H1 H2.
    apply signature_ok_inv in H1. destruct H1 as [m1 [E1 [-> _]]].
    apply signature_ok_inv in H2. destruct H2 as [m2 [E2 [-> _]]].
    exists m1, m2. split; [exact E1|]. split; [exact E2|].
    split; [|apply signature_text_eq_iff].
    intros ->. apply (message_sensitive _ _ _ _ _ _ Hd).
    exact (encode_inj _ _ _ E1 E2).
  - vm_compute. reflexivity.
  - vm_compute. reflexivity.
  - vm_compute. discriminate.
Qed.

(** 110 against 111 at the known vector, run in two different worlds. *)
Lemma C5_witness :
  one_field_differs 110 vector_uuid the_product_code
                    111 vector_uuid the_product_code /\
  generate.signature (PyInt 110) (PyStr vector_uuid) (PyStr the_product_code)
                     the_secret (constant_world x00)
    = (Ok vector_signature, constant_world x00) /\
  generate.signature (PyInt 111) (PyStr vector_uuid) (PyStr the_product_code)
                     the_secret (constant_world x01)
    = (Ok vector_signature_111, constant_world x01) /\
  exists m1 m2 : bytes,
    utf8.encode (generate.message (PyInt 110) (PyStr vector_uuid)
                                  (PyStr the_product_code)) = Ok m1 /\
    utf8.encode (generate.message (PyInt 111) (PyStr vector_uuid)
                                  (PyStr the_product_code)) = Ok m2 /\
    m1 <> m2 /\
    (vector_signature = vector_signature_111 <->
     RFC2104.HMAC_SHA256 the_secret m1 = RFC2104.HMAC_SHA256 the_secret m2).
Proof.
  assert (Hd : one_field_differs 110 vector_uuid the_product_code
                                 111 vector_uuid the_product_code)
    by (left; split; [lia | split; reflexivity]).
  assert (H1 : generate.signature (PyInt 110) (PyStr vector_uuid)
                 (PyStr the_product_code) the_secret (constant_world x00)
               = (Ok vector_signature, constant_world x00))
    by (vm_compute; reflexivity).
  assert (H2 : generate.signature (PyInt 111) (PyStr vector_uuid)
                 (PyStr the_product_code) the_secret (constant_world x01)
               = (Ok vector_signature_111, constant_world x01))
    by (vm_compute; reflexivity).
  split; [exact Hd|]. split; [exact H1|]. split; [exact H2|].
  exact (proj1 C5_sensitivity_up_to_hmac_collision
           110 vector_uuid the_product_code 111 vector_uuid the_product_code
           the_secret (constant_world x00) (constant_world x01)
           (constant_world x00) (constant_world x01)
           vector_signature vector_signature_111 Hd H1 H2).
Defined.

(** C6, as stated, fails: a Python string may hold a lone surrogate, and
    with the product code made of the one code point U+D800 the encoding of
    the message raises [UnicodeEncodeError]. *)
Lemma C6_counterexample :
  generate.signature (PyInt 110) (PyStr vector_uuid) (PyStr [55296])
                     the_secret (constant_world x00)
  = (Raise (UnicodeEncodeError 55296), constant_world x00).
Proof. vm_compute. reflexivity. Qed.

(** C6, amended.  With the interpreter's limit on integer digits in
    force, the signature computation raises nothing but [ValueError], when
    a field is an integer with more digits than the limit (10^4300 under
    the default 4300), and [UnicodeEncodeError], on a code point of the
    canonical message that UTF-8 cannot carry (a surrogate).  For an
    integer total_amount within the limit and two strings free of
    surrogates it returns a signature, the one of the computation without
    the limit.  In every run of [paymentHandler], under every limit the
    interpreter accepts, the signature computation returns and the call
    of [render] is reached with the four values; every run of the script
    returns. *)
Theorem C6_errors_of_the_signature :
  (forall (limit : nat) (total_amount uid product_code : pyval)
          (secret : bytes) (w w' : World) (e : exn),
     digit_limit.signature limit total_amount uid product_code secret w
       = (Raise e, w') ->
     (e = ValueError /\
      within_limit limit total_amount && within_limit limit uid
        && within_limit limit product_code = false) \/
     (exists c,
        e = UnicodeEncodeError c /\
        In c (generate.message total_amount uid product_code) /\
        is_scalar c = false)) /\
  (forall (limit : nat) (n : Z) (u p : str) (secret : bytes) (w : World),
     within_limit limit (PyInt n) = true ->
     Forall (fun c => is_scalar c = true) u ->
     Forall (fun c => is_scalar c = true) p ->
     exists sig,
       digit_limit.signature limit (PyInt n) (PyStr u) (PyStr p) secret w
         = (Ok sig, w) /\
       generate.signature (PyInt n) (PyStr u) (PyStr p) secret w
         = (Ok sig, w)) /\
  digit_limit.signature digit_limit.default_max_str_digits
    (PyInt (10 ^ 4300)) (PyStr vector_uuid) (PyStr the_product_code)
    the_secret (constant_world x00)
    = (Raise ValueError, constant_world x00) /\
  (forall (limit : nat) (Request : Type) (request : Request) (w : World),
     admissible_limit limit ->
     exists sig,
       digit_limit.signature limit (PyInt 110) (PyUUID (uuid4_of (draw w)))
         (PyStr (str_lit "EPAYTEST")) (bytes_lit "8gBm/:&EnhH.1/q")
         (after_draw w) = (Ok sig, after_draw w) /\
       views.paymentHandler request w =
       views.render request "index.html"
         [ ("transaction_uuid"%string, PyUUID (uuid4_of (draw w)));
           ("total_amount"%string, PyInt 110);
           ("product_code"%string, PyStr (str_lit "EPAYTEST"));
           ("signature"%string, PyStr sig) ] (after_draw w)) /\
  (forall (limit : nat) (w : World),
     admissible_limit limit ->
     exists g w',
       secret_py.main w = (Ok g, w') /\
       digit_limit.signature limit (PyInt (secret_py.total_amount g))
         (PyUUID (secret_py.uid g)) (PyStr (secret_py.product_code g))
         (secret_py.secret g) (after_draw w)
         = (Ok (secret_py.signature g), after_draw w)).
Proof.
  assert (H110 : forall limit, admissible_limit limit ->
                   within_limit limit (PyInt 110) = true).
  { intros limit Hl. apply small_int_within; [exact Hl|].
    vm_compute. repeat constructor. }
  split; [|split; [|split; [|split]]].
  - intros limit ta uid pc secret w w' e. rewrite signature_within.
    destruct (_ && _) eqn:Ew.
    + rewrite signature_run.
      destruct (utf8.encode _) as [m|e'] eqn:E; cbn [rbind]; intros H.
      * discriminate H.
      * right. apply pair_equal_spec in H. destruct H as [H _].
        assert (e' = e) by (injection H as H; exact H). subst e'.
        apply encode_raise, E.
    + intros H. left. apply pair_equal_spec in H. destruct H as [H _].
      split; [injection H as H; symmetry; exact H | reflexivity].
  - intros limit n u p secret w Hn Hu Hp.
    destruct (encode_ok _ (message_scalar n u p Hu Hp)) as [m E].
    exists (signature_text secret m).
    rewrite signature_within, Hn. cbn [within_limit andb].
    rewrite signature_run, E. split; reflexivity.
  - rewrite signature_within.
    replace (within_limit digit_limit.default_max_str_digits
                          (PyInt (10 ^ 4300))) with false
      by (vm_compute; reflexivity).
    reflexivity.
  - intros limit Request request w Hl.
    exists (signature_text the_secret (the_message (uuid4_of (draw w)))).
    split.
    + rewrite signature_within, (H110 limit Hl). cbn [within_limit andb].
      rewrite signature_run. fold the_product_code. fold the_secret.
      rewrite the_message_encoded. reflexivity.
    + rewrite paymentHandler_returns. reflexivity.
  - intros limit w Hl. pose proof (script_returns w) as H. cbv zeta in H.
    eexists _, _. split; [exact H|].
    cbn [secret_py.total_amount secret_py.uid secret_py.product_code
         secret_py.secret secret_py.signature].
    rewrite signature_within, (H110 limit Hl). cbn [within_limit andb].
    rewrite signature_run, the_message_encoded. reflexivity.
Qed.

(** An integer of exactly 4300 digits under the default limit, with a
    product code of three non-ASCII characters, none a surrogate. *)
Lemma C6_witness :
  (within_limit digit_limit.default_max_str_digits (PyInt (10 ^ 4300 - 1))
     = true /\
   Forall (fun c => is_scalar c = true) vector_uuid /\
   Forall (fun c => is_scalar c = true) [233; 8364; 128512]) /\
  exists sig,
    digit_limit.signature digit_limit.default_max_str_digits
      (PyInt (10 ^ 4300 - 1)) (PyStr vector_uuid)
      (PyStr [233; 8364; 128512]) the_secret (constant_world x00)
      = (Ok sig, constant_world x00) /\
    generate.signature (PyInt (10 ^ 4300 - 1)) (PyStr vector_uuid)
      (PyStr [233; 8364; 128512]) the_secret (constant_world x00)
      = (Ok sig, constant_world x00).
Proof.
  assert (Hn : within_limit digit_limit.default_max_str_digits
                            (PyInt (10 ^ 4300 - 1)) = true)
    by (vm_compute; reflexivity).
  assert (Hu : Forall (fun c => is_scalar c = true) vector_uuid)
    by (apply forallb_Forall; vm_compute; reflexivity).
  assert (Hp : Forall (fun c => is_scalar c = true) [233; 8364; 128512])
    by (apply forallb_Forall; vm_compute; reflexivity).
  split; [split; [exact Hn | split; [exact Hu | exact Hp]]|].
  exact (proj1 (proj2 C6_errors_of_the_signature)
           digit_limit.default_max_str_digits (10 ^ 4300 - 1)
           vector_uuid [233; 8364; 128512] the_secret
           (constant_world x00) Hn Hu Hp).
Defined.

(** C7, as stated, fails for the script: computing the signature it
    writes three lines to standard output (and both files draw 16 bytes
    from the system's random source).  The run from a world with empty
    output and a random source of zero bytes: *)
Lemma C7_counterexample :
  stdout (constant_world x00) = [] /\
  secret_py.main (constant_world x00) =
    (Ok vector_globals, mkWorld (fun _ => x00) 16 vector_stdout).
Proof. split; [reflexivity | vm_compute; reflexivity]. Qed.

(** C7, amended.  The signature computation proper (message, HMAC,
    base64) leaves the world as it found it; a run of [paymentHandler]
    draws 16 bytes from the system's random source and changes nothing
    else: standard output is untouched; a run of the script draws 16 bytes
    as well and appends its three lines (UID, digest, signature) to
    standard output. *)
Theorem C7_effects_of_the_two_files :
  (forall (total_amount uid product_code : pyval) (secret : bytes) (w : World),
     snd (generate.signature total_amount uid product_code secret w) = w) /\
  (forall (Request : Type) (request : Request) (w : World),
     snd (views.paymentHandler request w)
       = mkWorld (entropy w) (drawn w + 16) (stdout w)) /\
  (forall w : World,
     snd (secret_py.main w)
       = mkWorld (entropy w) (drawn w + 16)
                 (stdout w ++ script_output (uuid4_of (draw w)))).
Proof.
  split; [|split].
  - intros. rewrite signature_run. reflexivity.
  - intros. rewrite paymentHandler_returns. reflexivity.
  - intros w. pose proof (script_returns w) as H. cbv zeta in H.
    rewrite H. cbn [snd map py_str join]. unfold script_output.
    f_equal. rewrite <- !app_assoc. reflexivity.
Qed.

(** C8, as stated, fails: a random source may repeat itself.  From a world
    whose source hands out zero bytes, two invocations in a row return the
    same transaction_uuid and the same signature. *)
Lemma C8_counterexample :
  views.paymentHandler tt (constant_world x00)
    = (Ok vector_response, after_draw (constant_world x00)) /\
  views.paymentHandler tt (after_draw (constant_world x00))
    = (Ok vector_response, after_draw (after_draw (constant_world x00))).
Proof. split; vm_compute; reflexivity. Qed.

(** C8, amended.  Two invocations in a row each return, each with a
    version-4 UUID made of 16 bytes of its own from the random source (the
    second reads the 16 bytes after those of the first).  The two UUIDs
    are equal exactly when the two draws agree on every bit but the six
    that version and variant overwrite.  When the UUIDs differ, the two
    messages differ, and the signatures are equal exactly when HMAC-SHA256
    under the secret takes the same value on them; when the UUIDs are
    equal, so are the responses. *)
Theorem C8_fresh_uuid_per_invocation
        (Request1 Request2 : Type) (request1 : Request1) (request2 : Request2)
        (w : World) :
  let w1 := after_draw w in
  let u1 := uuid4_of (draw w) in
  let u2 := uuid4_of (draw w1) in
  views.paymentHandler request1 w = (Ok (response_of u1), w1) /\
  views.paymentHandler request2 w1 = (Ok (response_of u2), after_draw w1) /\
  draw w1 = map (entropy w) (seq (drawn w + 16) 16) /\
  (uuid_version u1 = 4 /\ uuid_version u2 = 4) /\
  (u1 = u2 <->
   forall i, 0 <= i -> v4_fixed i = false ->
     Z.testbit (uuid.from_bytes (draw w)) i
     = Z.testbit (uuid.from_bytes (draw w1)) i) /\
  (u1 <> u2 ->
   the_message u1 <> the_message u2 /\
   (signature_text the_secret (the_message u1)
      = signature_text the_secret (the_message u2) <->
    RFC2104.HMAC_SHA256 the_secret (the_message u1)
      = RFC2104.HMAC_SHA256 the_secret (the_message u2))) /\
  (u1 = u2 -> response_of u1 = response_of u2).
Proof.
  cbv zeta.
  split; [apply paymentHandler_returns|].
  split; [apply paymentHandler_returns|].
  split; [reflexivity|].
  split; [split; exact (proj1 (uuid4_of_version _))|].
  split; [apply uuid4_of_eq_iff|].
  split.
  - intros Hne. split; [|apply signature_text_eq_iff].
    intros Hm.
    apply (message_uuid_sensitive 110 _ _ the_product_code
             (uuid4_of_range _ (draw_length w))
             (uuid4_of_range _ (draw_length (after_draw w))) Hne).
    apply (encode_inj _ _ (the_message (uuid4_of (draw w)))).
    + apply the_message_encoded.
    + rewrite Hm. apply the_message_encoded.
  - intros ->. reflexivity.
Qed.

(** Two draws that differ: sixteen bytes 0x00, then sixteen bytes 0x01. *)
Lemma C8_witness :
  uuid4_of (draw (two_draws_world x00 x01))
    <> uuid4_of (draw (after_draw (two_draws_world x00 x01))) /\
  the_message (uuid4_of (draw (two_draws_world x00 x01)))
    <> the_message (uuid4_of (draw (after_draw (two_draws_world x00 x01)))).
Proof.
  assert (Hne : uuid4_of (draw (two_draws_world x00 x01))
                <> uuid4_of (draw (after_draw (two_draws_world x00 x01))))
    by (vm_compute; discriminate).
  split; [exact Hne|].
  pose proof (C8_fresh_uuid_per_invocation unit unit tt tt
                (two_draws_world x00 x01)) as H.
  cbv zeta in H.
  exact (proj1 (proj1 (proj2 (proj2 (proj2 (proj2 (proj2 H))))) Hne)).
Defined.

(** C9.  Every invocation of [paymentHandler] returns, and in the context
    it hands to the template total_amount is 110, product_code is
    EPAYTEST and the signature is the one keyed by the bytes
    [8gBm/:&EnhH.1/q] over the message for 110, the UUID drawn and
    EPAYTEST: the UUID is all that varies. *)
Theorem C9_handler_constants :
  the_secret = bytes_lit "8gBm/:&EnhH.1/q" /\
  forall (Request : Type) (request : Request) (w : World),
  exists (u : uuid.UUID) (signature : str) (w' : World),
    views.paymentHandler request w =
      (Ok (views.mkResponse "index.html"
             [ ("transaction_uuid"%string, PyUUID u);
               ("total_amount"%string, PyInt 110);
               ("product_code"%string, PyStr (str_lit "EPAYTEST"));
               ("signature"%string, PyStr signature) ]), w') /\
    generate.signature (PyInt 110) (PyUUID u) (PyStr (str_lit "EPAYTEST"))
                       (bytes_lit "8gBm/:&EnhH.1/q") w' = (Ok signature, w').
Proof.
  split; [reflexivity|].
  intros Request request w.
  exists (uuid4_of (draw w)),
         (signature_text the_secret (the_message (uuid4_of (draw w)))),
         (after_draw w).
  split; [apply paymentHandler_returns|].
  rewrite signature_run. fold the_product_code. fold the_secret.
  rewrite the_message_encoded. reflexivity.
Qed.

(** C10.  The script and the view compute the same signature: when the
    script, run in one world, and [paymentHandler], run in another, use
    the same transaction_uuid, the name [signature] of the script and the
    entry [signature] of the view's context hold the same string. *)
Theorem C10_script_and_handler_agree
        (Request : Type) (request : Request) (w1 w2 w1' w2' : World)
        (g : secret_py.globals) (r : views.HttpResponse) :
  secret_py.main w1 = (Ok g, w1') ->
  views.paymentHandler request w2 = (Ok r, w2') ->
  views.lookup "transaction_uuid" (views.context r)
    = Some (PyUUID (secret_py.transaction_uuid g)) ->
  views.lookup "signature" (views.context r)
    = Some (PyStr (secret_py.signature g)).
Proof.
  intros Hs Hh Hu.
  pose proof (script_returns w1) as H1. cbv zeta in H1.
  rewrite H1 in Hs. apply run_ok_inv in Hs. destruct Hs as [<- _].
  rewrite paymentHandler_returns in Hh. apply run_ok_inv in Hh.
  destruct Hh as [<- _].
  cbn [views.context secret_py.transaction_uuid secret_py.signature] in *.
  rewrite (proj1 (context_lookup _ _ _ _)) in Hu. apply some_uuid_inv in Hu.
  rewrite (proj2 (context_lookup _ _ _ _)), Hu. reflexivity.
Qed.

(** The script and the view at the known vector, in two different worlds. *)
Lemma C10_witness :
  secret_py.main (constant_world x00)
    = (Ok vector_globals, snd (secret_py.main (constant_world x00))) /\
  views.paymentHandler tt (mkWorld (fun _ => x00) 7 [10])
    = (Ok vector_response,
       snd (views.paymentHandler tt (mkWorld (fun _ => x00) 7 [10]))) /\
  views.lookup "transaction_uuid" (views.context vector_response)
    = Some (PyUUID (secret_py.transaction_uuid vector_globals)) /\
  views.lookup "signature" (views.context vector_response)
    = Some (PyStr (secret_py.signature vector_globals)).
Proof.
  split; [vm_compute; reflexivity|].
  split; [vm_compute; reflexivity|].
  split; [vm_compute; reflexivity|].
  apply (C10_script_and_handler_agree unit tt
           (constant_world x00) (mkWorld (fun _ => x00) 7 [10])
           (snd (secret_py.main (constant_world x00)))
           (snd (views.paymentHandler tt (mkWorld (fun _ => x00) 7 [10])))
           vector_globals vector_response).
  - vm_compute. reflexivity.
  - vm_compute. reflexivity.
  - vm_compute. reflexivity.
Defined.

(* ================================================================== *)
(** * Further properties of the two files *)
(* ================================================================== *)

(** ** The text of the UUID both files draw *)

Lemma hex_digits_split (a b : nat) (n : Z) :
  hex_digits (a + b) n = hex_digits a (n / 16 ^ Z.of_nat b) ++ hex_digits b n.
Proof.
  revert n. induction b as [|b IH]; intros n.
  - rewrite Nat.add_0_r. change (16 ^ Z.of_nat 0) with 1.
    rewrite Z.div_1_r. cbn [hex_digits]. rewrite app_nil_r. reflexivity.
  - rewrite Nat.add_succ_r. cbn [hex_digits]. rewrite IH, <- app_assoc.
    rewrite Z.div_div by lia.
    rewrite Nat2Z.inj_succ, Z.pow_succ_r by lia. reflexivity.
Qed.

Lemma hex_digit_lower (d : Z) : 0 <= d < 16 -> is_hex_lower (hex_digit d) = true.
Proof.
  intros H. unfold is_hex_lower, hex_digit.
  destruct (Z.ltb_spec d 10); decide_tests; reflexivity.
Qed.

Lemma hex_digits_lower (w : nat) (n : Z) :
  Forall (fun c => is_hex_lower c = true) (hex_digits w n).
Proof.
  revert n. induction w as [|w IH]; intros n; cbn [hex_digits].
  - constructor.
  - apply Forall_app. split; [apply IH|].
    constructor; [|constructor].
    apply hex_digit_lower. apply Z.mod_pos_bound. lia.
Qed.

(** The five groups of [UUID.__str__], from the groups of the 32 digits. *)
Lemma uuid_layout (g1 g2 g3 g4 g5 : str) :
  List.length g1 = 8%nat -> List.length g2 = 4%nat ->
  List.length g3 = 4%nat -> List.length g4 = 4%nat ->
  let h := g1 ++ g2 ++ g3 ++ g4 ++ g5 in
  uuid.slice 0 8 h ++ [45] ++ uuid.slice 8 12 h ++ [45] ++ uuid.slice 12 16 h
    ++ [45] ++ uuid.slice 16 20 h ++ [45] ++ skipn 20 h
  = g1 ++ [45] ++ g2 ++ [45] ++ g3 ++ [45] ++ g4 ++ [45] ++ g5.
Proof.
  intros H1 H2 H3 H4.
  do 8 (destruct g1 as [|? g1]; [discriminate H1|]).
  destruct g1; [|discriminate H1].
  do 4 (destruct g2 as [|? g2]; [discriminate H2|]).
  destruct g2; [|discriminate H2].
  do 4 (destruct g3 as [|? g3]; [discriminate H3|]).
  destruct g3; [|discriminate H3].
  do 4 (destruct g4 as [|? g4]; [discriminate H4|]).
  destruct g4; [|discriminate H4].
  reflexivity.
Qed.

Lemma uuid_to_str_groups (u : uuid.UUID) :
  uuid.to_str u =
  hex_digits 8 (uuid.int u / 16 ^ 24) ++ [45] ++
  hex_digits 4 (uuid.int u / 16 ^ 20) ++ [45] ++
  hex_digits 4 (uuid.int u / 16 ^ 16) ++ [45] ++
  hex_digits 4 (uuid.int u / 16 ^ 12) ++ [45] ++
  hex_digits 12 (uuid.int u).
Proof.
  unfold uuid.to_str. set (n := uuid.int u).
  assert (E : hex_digits 32 n =
              hex_digits 8 (n / 16 ^ 24) ++ hex_digits 4 (n / 16 ^ 20) ++
              hex_digits 4 (n / 16 ^ 16) ++ hex_digits 4 (n / 16 ^ 12) ++
              hex_digits 12 n).
  { rewrite (hex_digits_split 8 24 n : hex_digits 32 n = _).
    rewrite (hex_digits_split 4 20 n : hex_digits 24 n = _).
    rewrite (hex_digits_split 4 16 n : hex_digits 20 n = _).
    rewrite (hex_digits_split 4 12 n : hex_digits 16 n = _).
    reflexivity. }
  rewrite E. apply uuid_layout; apply hex_digits_length.
Qed.

Lemma hex_digits_first (w : nat) (n : Z) :
  hex_digits (S w) n =
  hex_digit (n / 16 ^ Z.of_nat w mod 16) :: hex_digits w n.
Proof.
  rewrite (hex_digits_split 1 w n : hex_digits (S w) n = _).
  cbn [hex_digits app]. reflexivity.
Qed.

Lemma uuid4_text (n : Z) :
  n / 2 ^ 76 mod 16 = 4 -> 8 <= n / 2 ^ 60 mod 16 <= 11 ->
  uuid4_text_shape (uuid.to_str (uuid.mkUUID n)).
Proof.
  intros Hver Hvar. rewrite uuid_to_str_groups. cbn [uuid.int].
  rewrite (hex_digits_first 3 (n / 16 ^ 16)), (hex_digits_first 3 (n / 16 ^ 12)).
  rewrite !Z.div_div by lia.
  change (16 ^ 16 * 16 ^ Z.of_nat 3) with (2 ^ 76).
  change (16 ^ 12 * 16 ^ Z.of_nat 3) with (2 ^ 60).
  rewrite Hver. change (hex_digit 4) with 52.
  exists (hex_digits 8 (n / 16 ^ 24)), (hex_digits 4 (n / 16 ^ 20)),
         (hex_digits 3 (n / 16 ^ 16)), (hex_digit (n / 2 ^ 60 mod 16)),
         (hex_digits 3 (n / 16 ^ 12)), (hex_digits 12 n).
  split; [reflexivity|].
  rewrite !hex_digits_length.
  repeat (split; [reflexivity|]).
  split.
  - repeat (apply Forall_app; split; [apply hex_digits_lower|]).
    apply hex_digits_lower.
  - assert (Hk : n / 2 ^ 60 mod 16 = 8 \/ n / 2 ^ 60 mod 16 = 9 \/
                 n / 2 ^ 60 mod 16 = 10 \/ n / 2 ^ 60 mod 16 = 11) by lia.
    destruct Hk as [-> | [-> | [-> | ->]]]; cbv; tauto.
Qed.

Lemma uuid4_of_text (b : bytes) :
  uuid4_text_shape (uuid.to_str (uuid4_of b)).
Proof.
  destruct (uuid4_of_version b) as [Hver Hvar].
  unfold uuid_version, uuid_variant_bits, uuid4_of in *. cbn [uuid.int] in *.
  set (n := v4_int (uuid.from_bytes b)) in *.
  rewrite Z.shiftr_div_pow2 in Hver, Hvar by lia.
  change 15 with (Z.ones 4) in Hver. change 3 with (Z.ones 2) in Hvar.
  rewrite Z.land_ones in Hver, Hvar by lia.
  apply uuid4_text; [exact Hver|].
  change (2 ^ 4) with 16 in Hver. change (2 ^ 2) with 4 in Hvar.
  assert (E : n / 2 ^ 60 mod 16 =
              n / 2 ^ 60 mod 4 + 4 * (n / 2 ^ 62 mod 4)).
  { change 16 with (4 * 4). rewrite Z.rem_mul_r by lia.
    rewrite Z.div_div by lia. reflexivity. }
  rewrite E, Hvar.
  pose proof (Z.mod_pos_bound (n / 2 ^ 60) 4 ltac:(lia)). lia.
Qed.

(** X1.  The transaction_uuid of every run of [paymentHandler], and the
    [uid] of every run of the script, is a 128-bit integer whose text (the
    text that enters the message, the template and the output) has the
    form of a version-4 UUID: 36 characters, 8-4-4-4-12 lowercase
    hexadecimal digits between dashes, [4] at the head of the third group
    and [8], [9], [a] or [b] at the head of the fourth. *)
Theorem X1_transaction_uuid_text :
  (forall (Request : Type) (request : Request) (w : World),
   exists (u : uuid.UUID) (r : views.HttpResponse) (w' : World),
     views.paymentHandler request w = (Ok r, w') /\
     views.lookup "transaction_uuid" (views.context r) = Some (PyUUID u) /\
     0 <= uuid.int u < 2 ^ 128 /\
     uuid4_text_shape (py_str (PyUUID u)) /\
     List.length (py_str (PyUUID u)) = 36%nat) /\
  (forall w : World,
   exists (g : secret_py.globals) (w' : World),
     secret_py.main w = (Ok g, w') /\
     secret_py.transaction_uuid g = secret_py.uid g /\
     0 <= uuid.int (secret_py.uid g) < 2 ^ 128 /\
     uuid4_text_shape (py_str (PyUUID (secret_py.uid g))) /\
     List.length (py_str (PyUUID (secret_py.uid g))) = 36%nat).
Proof.
  assert (Hlen : forall u, List.length (uuid.to_str u) = 36%nat).
  { intros u. rewrite uuid_to_str_groups.
    rewrite !length_app, !hex_digits_length. reflexivity. }
  split.
  - intros Request request w.
    exists (uuid4_of (draw w)), (response_of (uuid4_of (draw w))), (after_draw w).
    split; [apply paymentHandler_returns|].
    split; [reflexivity|].
    split; [apply uuid4_of_range, draw_length|].
    cbn [py_str]. split; [apply uuid4_of_text | apply Hlen].
  - intros w. pose proof (script_returns w) as H. cbv zeta in H.
    eexists _, _. split; [exact H|].
    cbn [secret_py.transaction_uuid secret_py.uid py_str].
    split; [reflexivity|].
    split; [apply uuid4_of_range, draw_length|].
    split; [apply uuid4_of_text | apply Hlen].
Qed.

(** ** Fields and their boundaries in the message *)

Lemma split_at_first (c : Z) (x x' r r' : str) :
  ~ In c x -> ~ In c x' ->
  x ++ c :: r = x' ++ c :: r' -> x = x' /\ r = r'.
Proof.
  revert x'. induction x as [|a x IH]; intros [|a' x'] Hx Hx' H;
    cbn [app] in H.
  - apply (f_equal (@tl Z)) in H. cbn [tl] in H. auto.
  - exfalso. apply Hx'. left. apply (f_equal (hd 0)) in H. cbn [hd] in H.
    symmetry. exact H.
  - exfalso. apply Hx. left. apply (f_equal (hd 0)) in H. cbn [hd] in H.
    exact H.
  - assert (Ea : a = a') by (apply (f_equal (hd 0)) in H; exact H).
    apply (f_equal (@tl Z)) in H. cbn [tl] in H.
    destruct (IH x') as [Ex Er]; [| |exact H|].
    + intros Hin. apply Hx. right. exact Hin.
    + intros Hin. apply Hx'. right. exact Hin.
    + subst. auto.
Qed.

Lemma no_comma_not_in (s : str) : no_comma s = true -> ~ In 44 s.
Proof.
  unfold no_comma. intros H Hin.
  pose proof (proj1 (forallb_forall _ _) H 44 Hin) as E. discriminate E.
Qed.

Lemma Forall_no_comma (P : Z -> bool) (s : str) :
  P 44 = false -> Forall (fun c => P c = true) s -> ~ In 44 s.
Proof.
  intros H44 HP Hin.
  pose proof (proj1 (Forall_forall _ _) HP 44 Hin) as E.
  cbv beta in E. rewrite H44 in E. discriminate E.
Qed.

Lemma string_of_uint_digits (d : Decimal.uint) :
  Forall (fun c => is_hex_lower c = true)
         (str_lit (DecimalString.NilEmpty.string_of_uint d)).
Proof.
  induction d; cbn [DecimalString.NilEmpty.string_of_uint];
    [constructor | rewrite str_lit_cons; constructor; [reflexivity | assumption] ..].
Qed.

Lemma int_str_no_comma (n : Z) : ~ In 44 (int_str n).
Proof.
  unfold int_str.
  destruct (Z.to_int n) as [d|d]; cbn [DecimalString.NilEmpty.string_of_int].
  - apply (Forall_no_comma is_hex_lower); [reflexivity|].
    apply string_of_uint_digits.
  - rewrite str_lit_cons. intros [H|H]; [discriminate H|].
    revert H. apply (Forall_no_comma is_hex_lower); [reflexivity|].
    apply string_of_uint_digits.
Qed.

Lemma uuid_to_str_no_comma (u : uuid.UUID) : ~ In 44 (uuid.to_str u).
Proof.
  apply (Forall_no_comma (fun c => is_hex_lower c || (c =? 45)));
    [reflexivity|].
  rewrite uuid_to_str_groups.
  assert (Hh : forall w n, Forall (fun c => is_hex_lower c || (c =? 45) = true)
                                  (hex_digits w n)).
  { intros w n. eapply Forall_impl; [|apply hex_digits_lower].
    intros c Hc. cbv beta in Hc. rewrite Hc. reflexivity. }
  assert (Hd : Forall (fun c => is_hex_lower c || (c =? 45) = true) [45])
    by (constructor; [reflexivity | constructor]).
  repeat first [ apply Hh | exact Hd | apply Forall_app; split ].
Qed.

(** The message with the field texts [a], [u] and [p], commas shown. *)
Lemma message_commas (total_amount uid product_code : pyval) :
  generate.message total_amount uid product_code =
  str_lit "total_amount=" ++ py_str total_amount ++
  44 :: str_lit "transaction_uuid=" ++ py_str uid ++
  44 :: str_lit "product_code=" ++ py_str product_code.
Proof. apply message_parts. Qed.

Lemma message_fields_inj (a a' u u' p p' : pyval) :
  ~ In 44 (py_str a) -> ~ In 44 (py_str a') ->
  ~ In 44 (py_str u) -> ~ In 44 (py_str u') ->
  generate.message a u p = generate.message a' u' p' ->
  py_str a = py_str a' /\ py_str u = py_str u' /\ py_str p = py_str p'.
Proof.
  intros Ha Ha' Hu Hu' H. rewrite !message_commas in H.
  apply app_inv_head in H.
  apply split_at_first in H; [|assumption|assumption].
  destruct H as [Ea H]. apply app_inv_head in H.
  apply split_at_first in H; [|assumption|assumption].
  destruct H as [Eu H]. apply app_inv_head in H. auto.
Qed.

(** X2.  The message does not mark where a field ends: the text
    [,product_code=] moved from the end of transaction_uuid to the head of
    product_code leaves the message, and so the signature under any
    secret, as it was, although the two tuples differ. *)
Theorem X2_field_boundary_not_marked
        (total_amount : pyval) (u p q : str) (secret : bytes) (w : World) :
  generate.message total_amount
                   (PyStr (u ++ str_lit ",product_code=" ++ p)) (PyStr q) =
  generate.message total_amount
                   (PyStr u) (PyStr (p ++ str_lit ",product_code=" ++ q)) /\
  generate.signature total_amount
                     (PyStr (u ++ str_lit ",product_code=" ++ p)) (PyStr q)
                     secret w =
  generate.signature total_amount
                     (PyStr u) (PyStr (p ++ str_lit ",product_code=" ++ q))
                     secret w /\
  u ++ str_lit ",product_code=" ++ p <> u.
Proof.
  assert (E : generate.message total_amount
                (PyStr (u ++ str_lit ",product_code=" ++ p)) (PyStr q) =
              generate.message total_amount
                (PyStr u) (PyStr (p ++ str_lit ",product_code=" ++ q))).
  { rewrite !message_parts. cbn [py_str]. rewrite <- !app_assoc. reflexivity. }
  split; [exact E|]. split.
  - rewrite !signature_run, E. reflexivity.
  - intros H. apply (f_equal (@List.length Z)) in H.
    rewrite !length_app in H.
    change (List.length (str_lit ",product_code=")) with 14%nat in H. lia.
Qed.

(** X3.  With an integer total_amount and a transaction_uuid that holds
    no comma, the message determines the three fields: two tuples with the
    same message are the same tuple. *)
Theorem X3_message_determines_fields (n n' : Z) (u u' p p' : str) :
  no_comma u = true -> no_comma u' = true ->
  generate.message (PyInt n) (PyStr u) (PyStr p) =
  generate.message (PyInt n') (PyStr u') (PyStr p') ->
  n = n' /\ u = u' /\ p = p'.
Proof.
  intros Hu Hu' H.
  apply message_fields_inj in H; cbn [py_str];
    try apply int_str_no_comma; try (apply no_comma_not_in; assumption).
  cbn [py_str] in H. destruct H as [En [Eu Ep]].
  split; [apply int_str_inj, En | auto].
Qed.

(** The known vector against itself. *)
Lemma X3_witness :
  (no_comma vector_uuid = true /\ no_comma vector_uuid = true /\
   generate.message (PyInt 110) (PyStr vector_uuid) (PyStr the_product_code) =
   generate.message (PyInt 110) (PyStr vector_uuid) (PyStr the_product_code)) /\
  (110 = 110 /\ vector_uuid = vector_uuid /\
   the_product_code = the_product_code).
Proof.
  assert (Hu : no_comma vector_uuid = true) by (vm_compute; reflexivity).
  split; [split; [exact Hu | split; [exact Hu | reflexivity]]|].
  exact (X3_message_determines_fields 110 110 vector_uuid vector_uuid
           the_product_code the_product_code Hu Hu eq_refl).
Defined.

(** X4.  For the values the two files format (an integer, a [UUID]
    object, a string), the bytes that are signed determine the three
    fields: when two tuples encode to the same bytes, they are the same
    tuple. *)
Theorem X4_signed_bytes_determine_fields
        (n n' : Z) (u u' : uuid.UUID) (p p' : str) (m : bytes) :
  0 <= uuid.int u < 2 ^ 128 -> 0 <= uuid.int u' < 2 ^ 128 ->
  utf8.encode (generate.message (PyInt n) (PyUUID u) (PyStr p)) = Ok m ->
  utf8.encode (generate.message (PyInt n') (PyUUID u') (PyStr p')) = Ok m ->
  n = n' /\ u = u' /\ p = p'.
Proof.
  intros Hr Hr' E E'.
  pose proof (encode_inj _ _ _ E E') as H.
  apply message_fields_inj in H; cbn [py_str];
    try apply int_str_no_comma; try apply uuid_to_str_no_comma.
  cbn [py_str] in H. destruct H as [En [Eu Ep]].
  split; [apply int_str_inj, En|].
  split; [apply uuid_to_str_inj; assumption | exact Ep].
Qed.

(** The known vector, with its UUID as an object. *)
Lemma X4_witness :
  (0 <= uuid.int vector_uuid_object < 2 ^ 128 /\
   utf8.encode (generate.message (PyInt 110) (PyUUID vector_uuid_object)
                                 (PyStr the_product_code))
     = Ok vector_message_bytes) /\
  (110 = 110 /\ vector_uuid_object = vector_uuid_object /\
   the_product_code = the_product_code).
Proof.
  assert (Hr : 0 <= uuid.int vector_uuid_object < 2 ^ 128)
    by (split; [discriminate | reflexivity]).
  assert (E : utf8.encode (generate.message (PyInt 110)
                (PyUUID vector_uuid_object) (PyStr the_product_code))
              = Ok vector_message_bytes) by (vm_compute; reflexivity).
  split; [split; [exact Hr | exact E]|].
  exact (X4_signed_bytes_determine_fields 110 110
           vector_uuid_object vector_uuid_object
           the_product_code the_product_code vector_message_bytes
           Hr Hr E E).
Defined.

(** ** What the script prints *)

Lemma hex_lower_printable (c : Z) :
  is_hex_lower c || (c =? 45) = true -> is_printable c = true.
Proof.
  unfold is_hex_lower, is_printable. intros H.
  decide_tests; try reflexivity; cbn in H; discriminate H.
Qed.

Lemma b64_letter_printable (c : Z) :
  b64_letter c = true -> is_printable c = true.
Proof.
  unfold b64_letter, is_printable. intros H.
  decide_tests; try reflexivity; cbn in H; discriminate H.
Qed.

Lemma uuid_to_str_printable (u : uuid.UUID) :
  Forall (fun c => is_printable c = true) (uuid.to_str u).
Proof.
  rewrite uuid_to_str_groups.
  assert (Hh : forall w n, Forall (fun c => is_printable c = true)
                                  (hex_digits w n)).
  { intros w n. eapply Forall_impl; [|apply hex_digits_lower].
    intros c Hc. apply hex_lower_printable. cbv beta in Hc.
    rewrite Hc. reflexivity. }
  assert (Hd : Forall (fun c => is_printable c = true) [45])
    by (constructor; [reflexivity | constructor]).
  repeat first [ apply Hh | exact Hd | apply Forall_app; split ].
Qed.

Lemma signature_text_printable (key m : bytes) :
  Forall (fun c => is_printable c = true) (signature_text key m).
Proof.
  destruct (signature_text_format key m) as [body [-> [_ Hf]]].
  apply Forall_app. split.
  - eapply Forall_impl; [|exact Hf]. apply b64_letter_printable.
  - constructor; [reflexivity | constructor].
Qed.

(** [repr] of a [bytes] object is printable ASCII, whatever the bytes. *)
Lemma bytes_repr_printable (b : bytes) :
  Forall (fun c => is_printable c = true) (bytes_repr b).
Proof.
  unfold bytes_repr.
  set (quote := if existsb (fun x => b2z x =? 39) b
                   && negb (existsb (fun x => b2z x =? 34) b)
                then 34 else 39).
  assert (Hq : quote = 34 \/ quote = 39)
    by (unfold quote; destruct (_ && _); auto).
  assert (Hqp : is_printable quote = true)
    by (destruct Hq as [-> | ->]; reflexivity).
  apply Forall_app. split; [repeat constructor; exact Hqp|].
  apply Forall_app. split; [|repeat constructor; exact Hqp].
  apply Forall_flat_map. apply Forall_forall. intros x _.
  pose proof (b2z_range x) as Hx. set (c := b2z x) in *.
  destruct ((c =? quote) || (c =? 92)) eqn:E1.
  { constructor; [reflexivity|]. constructor; [|constructor].
    apply orb_true_iff in E1. destruct E1 as [E|E]; apply Z.eqb_eq in E.
    - rewrite E. exact Hqp.
    - rewrite E. reflexivity. }
  destruct (Z.eqb_spec c 9); [repeat constructor|].
  destruct (Z.eqb_spec c 10); [repeat constructor|].
  destruct (Z.eqb_spec c 13); [repeat constructor|].
  destruct ((c <? 32) || (127 <=? c)) eqn:E2.
  { constructor; [reflexivity|]. constructor; [reflexivity|].
    constructor; [|constructor; [|constructor]];
      apply hex_lower_printable; rewrite hex_digit_lower;
      try reflexivity; Z.div_mod_to_equations; lia. }
  apply orb_false_iff in E2. destruct E2 as [Ea Eb].
  apply Z.ltb_ge in Ea. apply Z.leb_gt in Eb.
  constructor; [|constructor].
  unfold is_printable. decide_tests; reflexivity.
Qed.

(** X5.  Every run of the script ends, and adds to standard output
    exactly three lines: [UID: ], a space and the text of [uid];
    [Digest: ], a space and the [repr] of [digest]; [Signature: ], a space
    and [signature].  Each line is printable ASCII (the digest's bytes are
    escaped), so the only newlines are the three that end the lines. *)
Theorem X5_script_output (w : World) :
  exists (g : secret_py.globals) (w' : World),
    secret_py.main w = (Ok g, w') /\
    let line1 := str_lit "UID: " ++ [32] ++ uuid.to_str (secret_py.uid g) in
    let line2 := str_lit "Digest: " ++ [32]
                   ++ bytes_repr (secret_py.digest g) in
    let line3 := str_lit "Signature: " ++ [32] ++ secret_py.signature g in
    stdout w' = stdout w ++ (line1 ++ [10]) ++ (line2 ++ [10])
                         ++ (line3 ++ [10]) /\
    Forall (fun c => is_printable c = true) (line1 ++ line2 ++ line3) /\
    is_printable 10 = false.
Proof.
  pose proof (script_returns w) as H. cbv zeta in H.
  eexists _, _. split; [exact H|].
  cbv zeta. cbn [stdout secret_py.uid secret_py.digest secret_py.signature
                 map py_str join].
  split; [rewrite <- !app_assoc; reflexivity|].
  split; [|reflexivity].
  assert (Hl : forall s, forallb is_printable (str_lit s) = true ->
                         Forall (fun c => is_printable c = true) (str_lit s))
    by (intros s; apply forallb_Forall).
  assert (Hs : Forall (fun c => is_printable c = true) [32])
    by (constructor; [reflexivity | constructor]).
  assert (Hline : forall (label : string) (text : str),
            forallb is_printable (str_lit label) = true ->
            Forall (fun c => is_printable c = true) text ->
            Forall (fun c => is_printable c = true)
                   (str_lit label ++ [32] ++ text)).
  { intros label text Hlab Ht.
    apply Forall_app; split; [apply Hl, Hlab|].
    apply Forall_app; split; [exact Hs | exact Ht]. }
  apply Forall_app; split;
    [apply Hline; [vm_compute; reflexivity | apply uuid_to_str_printable]|].
  apply Forall_app; split;
    [apply Hline; [vm_compute; reflexivity | apply bytes_repr_printable]|].
  apply Hline; [vm_compute; reflexivity | apply signature_text_printable].
Qed.

(** ** Secrets that sign alike *)

Lemma K0_zero_padded (H : bytes -> bytes) (key : bytes) (k : nat) :
  (List.length key + k <= 64)%nat ->
  RFC2104.K0 H 64 (key ++ repeat x00 k) = RFC2104.K0 H 64 key.
Proof.
  intros Hk. unfold RFC2104.K0. rewrite length_app, repeat_length.
  replace (List.length key + k <=? 64)%nat with true
    by (symmetry; apply Nat.leb_le; lia).
  replace (List.length key <=? 64)%nat with true
    by (symmetry; apply Nat.leb_le; lia).
  rewrite length_app, repeat_length, <- app_assoc, <- repeat_app.
  f_equal. f_equal. lia.
Qed.

Lemma K0_long_key (key : bytes) :
  (64 < List.length key)%nat ->
  RFC2104.K0 SHA256.hash 64 key = RFC2104.K0 SHA256.hash 64 (SHA256.hash key).
Proof.
  intros Hk. unfold RFC2104.K0. rewrite sha256_length.
  replace (List.length key <=? 64)%nat with false
    by (symmetry; apply Nat.leb_gt; lia).
  reflexivity.
Qed.

Lemma signature_same_K0 (total_amount uid product_code : pyval)
      (s1 s2 : bytes) (w : World) :
  RFC2104.K0 SHA256.hash 64 s1 = RFC2104.K0 SHA256.hash 64 s2 ->
  generate.signature total_amount uid product_code s1 w =
  generate.signature total_amount uid product_code s2 w.
Proof.
  intros E. rewrite !signature_run.
  destruct (utf8.encode _) as [m|e]; cbn [rbind]; [|reflexivity].
  unfold signature_text, RFC2104.HMAC_SHA256, RFC2104.HMAC.
  rewrite E. reflexivity.
Qed.

(** X6.  The secret is not read byte for byte: zero bytes added at its
    end, up to 64 bytes in all, leave every signature as it was, and a
    secret longer than 64 bytes signs exactly like its SHA-256 digest. *)
Theorem X6_secrets_that_sign_alike :
  (forall (total_amount uid product_code : pyval) (secret : bytes) (k : nat)
          (w : World),
     (List.length secret + k <= 64)%nat ->
     generate.signature total_amount uid product_code
                        (secret ++ repeat x00 k) w =
     generate.signature total_amount uid product_code secret w) /\
  (forall (total_amount uid product_code : pyval) (secret : bytes) (w : World),
     (64 < List.length secret)%nat ->
     generate.signature total_amount uid product_code secret w =
     generate.signature total_amount uid product_code (SHA256.hash secret) w).
Proof.
  split.
  - intros ta uid pc secret k w Hk.
    apply signature_same_K0, K0_zero_padded, Hk.
  - intros ta uid pc secret w Hk.
    apply signature_same_K0, K0_long_key, Hk.
Qed.

(** The secret of the two files with one zero byte added, at the known
    vector. *)
Lemma X6_witness :
  (List.length the_secret + 1 <= 64)%nat /\
  generate.signature (PyInt 110) (PyStr vector_uuid) (PyStr the_product_code)
                     (the_secret ++ repeat x00 1) (constant_world x00) =
  generate.signature (PyInt 110) (PyStr vector_uuid) (PyStr the_product_code)
                     the_secret (constant_world x00).
Proof.
  assert (Hk : (List.length the_secret + 1 <= 64)%nat)
    by (vm_compute; repeat constructor).
  split; [exact Hk|].
  exact (proj1 X6_secrets_that_sign_alike
           (PyInt 110) (PyStr vector_uuid) (PyStr the_product_code)
           the_secret 1%nat (constant_world x00) Hk).
Defined.
